(** * Fitbit data helpers ([utils.py]): loaders, exclusion filter and validator

    A shallow embedding of [utils.py].  The module is a thin layer over
    pandas, so the embedding consists of

    - a small model of the pandas objects the module touches: cell values,
      a [DataFrame] as a header plus labelled rows, the exceptions raised,
      and a store of frames addressed by reference (pandas frames are
      mutable objects and most calls of the module pass [inplace=True]);
    - the module's own data ([excluded_subjects], [assessment_dates]) and
      functions, written call by call in a state-and-exception monad.

    Conventions of the model.  The pandas calls are given the behaviour
    pandas 2 documents for them (without copy-on-write).

    - A numeric cell is an exact integer.  pandas keeps numbers as int64 or
      float64; float rounding (and the order numpy adds in) is outside the
      model.
    - [pd.read_csv] and [pd.read_excel] are not modelled: a loader receives
      the frame that reading its file produced.  Both readers tell repeated
      column names apart ([a], [a.1], ...), so by-name access to a column
      of a freshly read frame denotes one column.
    - [pd.to_datetime] is a parameter of the development.
    - A column the code asks for by name and does not find makes pandas
      raise ([KeyError], or [AttributeError] for [df.subjectID]); the model
      raises the same exception at the same call. *)

From Stdlib Require Import ZArith String Ascii List Lia.
From stdpp Require Import base option list strings.

Local Open Scope string_scope.
Local Open Scope list_scope.

(** ** Cell values, rows and frames *)

(** A cell holds a number, a text, a timestamp or the missing marker
    ([np.nan]). *)
Inductive value : Type :=
  | VNum (z : Z)
  | VStr (s : string)
  | VDate (t : Z)
  | NaN.

Definition value_eqb (a b : value) : bool :=
  match a, b with
  | VNum x, VNum y => Z.eqb x y
  | VStr x, VStr y => String.eqb x y
  | VDate x, VDate y => Z.eqb x y
  | _, _ => false
  end.

(** A row carries its index label and one cell per column. *)
Record Row : Type := mkRow { label : value; cells : list value }.

Record DataFrame : Type := mkDF { columns : list string; rows : list Row }.

(** Frames are rectangular. *)
Definition rectangular (d : DataFrame) : Prop :=
  Forall (fun r => length (cells r) = length (columns d)) (rows d).

(** Exceptions.  [Exception_] is Python's plain [Exception] with its
    message; [Dangling] stands for a reference to no object, which Python
    code cannot produce. *)
Inductive exn : Type :=
  | AttributeError (name : string)
  | KeyError (key : string)
  | TypeError
  | ValueError
  | Exception_ (msg : string)
  | Dangling.

Inductive result (A : Type) : Type :=
  | Ok (a : A)
  | Raise (e : exn).
Arguments Ok {A} a.
Arguments Raise {A} e.

(** ** By-name access to columns *)

Definition mem (k : string) (l : list string) : bool :=
  existsb (String.eqb k) l.

Definition has_col (c : string) (d : DataFrame) : bool := mem c (columns d).

(** The cells of a row that stand under the columns named [c]. *)
Fixpoint pick (c : string) (cols : list string) (cs : list value)
  : list value :=
  match cols, cs with
  | k :: cols', v :: cs' =>
      if String.eqb k c then v :: pick c cols' cs' else pick c cols' cs'
  | _, _ => []
  end.

(** The cell of row [r] in column [c] (the first one of that name). *)
Definition cell (c : string) (d : DataFrame) (r : Row) : value :=
  hd NaN (pick c (columns d) (cells r)).

(** Apply [f] to the cells under the columns named [c]. *)
Fixpoint map_at (c : string) (f : value -> value) (cols : list string)
  (cs : list value) : list value :=
  match cols, cs with
  | k :: cols', v :: cs' =>
      (if String.eqb k c then f v else v) :: map_at c f cols' cs'
  | _, _ => cs
  end.

(** The same with a conversion that may fail. *)
Fixpoint map_at_opt (c : string) (f : value -> option value)
  (cols : list string) (cs : list value) : option (list value) :=
  match cols, cs with
  | k :: cols', v :: cs' =>
      match (if String.eqb k c then f v else Some v) with
      | Some v' =>
          match map_at_opt c f cols' cs' with
          | Some cs'' => Some (v' :: cs'')
          | None => None
          end
      | None => None
      end
  | _, _ => Some cs
  end.

(** Remove the cells under the columns named in [labels]. *)
Fixpoint drop_cells (labels cols : list string) (cs : list value)
  : list value :=
  match cols, cs with
  | k :: cols', v :: cs' =>
      if mem k labels then drop_cells labels cols' cs'
      else v :: drop_cells labels cols' cs'
  | _, _ => cs
  end.

Definition on_cells (f : list value -> list value) (r : Row) : Row :=
  mkRow (label r) (f (cells r)).

(** ** pandas operations on a frame *)

(** [df.subjectID]: attribute access to a column. *)
Definition getattr (c : string) (d : DataFrame) : result (list value) :=
  if has_col c d then Ok (map (cell c d) (rows d))
  else Raise (AttributeError c).

(** [Series.replace(old, new)] on the column [c] of a frame. *)
Definition replace_value (old new v : value) : value :=
  if value_eqb v old then new else v.

Definition replace_in_column (c : string) (old new : value) (d : DataFrame)
  : result DataFrame :=
  if has_col c d
  then Ok (mkDF (columns d)
             (map (on_cells (map_at c (replace_value old new) (columns d)))
                (rows d)))
  else Raise (KeyError c).

(** [df.replace(to_replace=old, value=new)]: every cell of the frame; the
    index is left alone. *)
Definition replace_everywhere (old new : value) (d : DataFrame) : DataFrame :=
  mkDF (columns d) (map (on_cells (map (replace_value old new))) (rows d)).

(** [df.set_index(c, drop=False)]. *)
Definition set_index (c : string) (d : DataFrame) : result DataFrame :=
  if has_col c d
  then Ok (mkDF (columns d) (map (fun r => mkRow (cell c d r) (cells r)) (rows d)))
  else Raise (KeyError c).

(** [df.rename(columns=f)]. *)
Definition rename_columns (f : string -> string) (d : DataFrame) : DataFrame :=
  mkDF (map f (columns d)) (rows d).

(** [df.drop(labels, axis=1)]: every label has to name a column. *)
Definition first_missing (labels cols : list string) : option string :=
  find (fun k => negb (mem k cols)) labels.

Definition drop_columns (labels : list string) (d : DataFrame)
  : result DataFrame :=
  match first_missing labels (columns d) with
  | Some k => Raise (KeyError k)
  | None =>
      Ok (mkDF (List.filter (fun k => negb (mem k labels)) (columns d))
            (map (on_cells (drop_cells labels (columns d))) (rows d)))
  end.

(** [df.loc[:, labels]] restricted to one row: the cells under the first
    label, then those under the second, and so on. *)
Definition loc_cells (labels cols : list string) (cs : list value)
  : list value :=
  flat_map (fun c => pick c cols cs) labels.

(** Addition as [sum] performs it with its defaults [skipna=True] and
    [min_count=0]: a missing value counts for zero, so that the sum of
    missing values only is zero; a text or a timestamp cannot be added to a
    number. *)
Fixpoint nansum (vs : list value) : option Z :=
  match vs with
  | [] => Some 0%Z
  | VNum z :: vs' => option_map (Z.add z) (nansum vs')
  | NaN :: vs' => nansum vs'
  | _ :: _ => None
  end.

(** [df.loc[:, labels].sum(axis=1)]: one total per row.  Every label has to
    name a column ([KeyError] otherwise), and a text or a timestamp among
    the cells to add makes the addition fail ([TypeError]). *)
Definition sum_axis1 (labels : list string) (d : DataFrame)
  : result (list value) :=
  match first_missing labels (columns d) with
  | Some k => Raise (KeyError k)
  | None =>
      match mapM (fun r => nansum (loc_cells labels (columns d) (cells r)))
              (rows d) with
      | Some totals => Ok (map VNum totals)
      | None => Raise TypeError
      end
  end.

(** [df.loc[:, c] = series] for a series that carries the frame's own
    index: the values go in row by row; a new name adds a column at the
    end. *)
Definition set_cell (c : string) (cols : list string) (v : value)
  (cs : list value) : list value :=
  if mem c cols then map_at c (fun _ => v) cols cs else cs ++ [v].

Fixpoint zip_rows (f : value -> list value -> list value)
  (vs : list value) (rs : list Row) : list Row :=
  match vs, rs with
  | v :: vs', r :: rs' => on_cells (f v) r :: zip_rows f vs' rs'
  | _, _ => rs
  end.

Definition set_column (c : string) (vs : list value) (d : DataFrame)
  : DataFrame :=
  mkDF (if mem c (columns d) then columns d else columns d ++ [c])
    (zip_rows (set_cell c (columns d)) vs (rows d)).

(** [str.replace(old, new)] for one-character arguments.  A name is held as
    its UTF-8 bytes; the characters [load_roster] replaces are ASCII, and
    an ASCII byte occurs in no other character's encoding. *)
Fixpoint str_replace (old new : ascii) (s : string) : string :=
  match s with
  | EmptyString => EmptyString
  | String a s' =>
      String (if Ascii.eqb a old then new else a) (str_replace old new s')
  end.

(** ** The store of frames and the monad of the module's functions *)

(** A Python name denotes a frame object; [inplace=True] calls change the
    object, indexing with a mask builds a new one. *)
Definition ref : Type := nat.
Definition store : Type := list DataFrame.

(** A computation runs on a store and ends with a value or an exception;
    the store is kept in both cases. *)
Definition M (A : Type) : Type := store -> result A * store.

#[export] Instance M_ret : MRet M := fun A a h => (Ok a, h).

#[export] Instance M_bind : MBind M := fun A B f m h =>
  match m h with
  | (Ok a, h') => f a h'
  | (Raise e, h') => (Raise e, h')
  end.

Definition raise {A : Type} (e : exn) : M A := fun h => (Raise e, h).

Definition lift {A : Type} (x : result A) : M A := fun h => (x, h).

(** A fresh object. *)
Definition new (d : DataFrame) : M ref := fun h => (Ok (length h), h ++ [d]).

Definition deref (r : ref) : M DataFrame := fun h =>
  match h !! r with
  | Some d => (Ok d, h)
  | None => (Raise Dangling, h)
  end.

Definition assign (r : ref) (d : DataFrame) : M unit := fun h =>
  (Ok tt, <[r:=d]> h).

(** An operation with [inplace=True]. *)
Definition inplace (r : ref) (f : DataFrame -> result DataFrame) : M unit :=
  d ← deref r; d' ← lift (f d); assign r d'.

(** ** Boolean masks *)

(** [series.isin(values)], [~mask], [mask.any()] and [df[mask]]. *)
Definition isin (series values : list value) : list bool :=
  map (fun v => existsb (value_eqb v) values) series.

Definition invert (mask : list bool) : list bool := map negb mask.

Definition any (mask : list bool) : bool := existsb (fun b => b) mask.

Fixpoint getitem_mask (mask : list bool) (rs : list Row) : list Row :=
  match mask, rs with
  | b :: mask', r :: rs' =>
      if b then r :: getitem_mask mask' rs' else getitem_mask mask' rs'
  | _, _ => []
  end.

(** ** Module data *)

(** The names under which [filenames] registers the data sets. *)
Inductive measure : Type :=
  | heart_rate | mult_measures | resting_heart_rate | sleep | roster.

Definition fitbit_basedir : string := "../data/_MASTER/".

Definition filenames (m : measure) : string :=
  match m with
  | heart_rate => fitbit_basedir ++ "MASTER_heart-rate.csv"
  | mult_measures => fitbit_basedir ++ "MASTER_multiple-measures.csv"
  | resting_heart_rate => fitbit_basedir ++ "MASTER_resting-hr.csv"
  | sleep => fitbit_basedir ++ "MASTER_sleep.csv"
  | roster => "../rosters/roster_Feb16.xlsx"
  end.

(** [excluded_subjects = list(set([...]))].  Python leaves the order of the
    resulting list open; the module only tests membership in it. *)
Definition excluded_subjects : list string :=
  remove_dups
    ["MBL094"; "MBL011"; "MBL045"; "MBL052"; "MBL042";
     "MBL016"; "MBL093"; "MBL066"; "MBL028"; "MBL059";
     "MBL016"; "MBL023"; "MBL045"; "MBL059"; "MBL066";
     "MBL048"; "MBL064"].

Definition assessment_dates : list (string * string) :=
  [("Quiz_1", "2016-09-15");
   ("Quiz_2", "2016-09-22");
   ("Quiz_3", "2016-09-29");
   ("Midterm_1", "2016-10-05");
   ("Quiz_4", "2016-10-13");
   ("Quiz_5", "2016-10-20");
   ("Quiz_6", "2016-10-27");
   ("Midterm_2", "2016-11-02");
   ("Quiz_7", "2016-11-10");
   ("Quiz_8", "2016-11-17");
   ("Midterm_3", "2016-11-30")].

(** [assessments = [j for j, _ in assessment_dates]]. *)
Definition assessments : list string := map fst assessment_dates.

(** The four renamings of [load_roster], in the order it applies them. *)
Definition sanitize (x : string) : string :=
  str_replace ")" "_" (str_replace "(" "_"
    (str_replace "?" "_" (str_replace " " "_" x))).

(** ** Exclusion filter and validator *)

(** [df[~df.subjectID.isin(to_exclude)]]. *)
Definition remove_excluded_subjs (df : ref) (to_exclude : list string)
  : M ref :=
  d ← deref df;
  subjectID ← lift (getattr "subjectID" d);
  new (mkDF (columns d)
         (getitem_mask (invert (isin subjectID (map VStr to_exclude)))
            (rows d))).

(** [if pd.Series(list(to_exclude)).isin(df.subjectID).any(): raise ...]. *)
Definition check_subjects_removed (df : ref) (to_exclude : list string)
  : M unit :=
  d ← deref df;
  subjectID ← lift (getattr "subjectID" d);
  if any (isin (map VStr to_exclude) subjectID)
  then raise (Exception_ "Some subjects not excluded.")
  else mret tt.

(** [if exclude: df = remove_excluded_subjs(...); check_subjects_removed(...)]
    followed by [return df], the common tail of the loaders. *)
Definition exclude_and_return (df : ref) (exclude : bool) : M ref :=
  if exclude then
    df' ← remove_excluded_subjs df excluded_subjects;
    check_subjects_removed df' excluded_subjects;;
    mret df'
  else mret df.

Section Loaders.

(** [pd.to_datetime] on one cell; [None] when the cell does not parse. *)
Variable to_datetime : value -> option value.

(** [df.loc[:, c] = pd.to_datetime(df.loc[:, c])]. *)
Definition to_datetime_column (c : string) (d : DataFrame)
  : result DataFrame :=
  if has_col c d then
    match mapM (fun r =>
                  option_map (mkRow (label r))
                    (map_at_opt c to_datetime (columns d) (cells r)))
            (rows d) with
    | Some rs => Ok (mkDF (columns d) rs)
    | None => Raise ValueError
    end
  else Raise (KeyError c).

Fixpoint to_datetime_inplace (df : ref) (cols : list string) : M unit :=
  match cols with
  | [] => mret tt
  | c :: cols' =>
      inplace df (to_datetime_column c);;
      to_datetime_inplace df cols'
  end.

(** *** Data loaders

    In [load_heart_rate_data], [df.loc[:, 'bpm']] is the frame's own
    column, so replacing in it with [inplace=True] changes the frame. *)

Definition load_heart_rate_data (file : DataFrame) (exclude : bool) : M ref :=
  df ← new file;
  inplace df (replace_in_column "bpm" (VNum 0) NaN);;
  to_datetime_inplace df ["dateTime"];;
  exclude_and_return df exclude.

Definition load_mult_measures_data (file : DataFrame) (exclude : bool)
  : M ref :=
  df ← new file;
  to_datetime_inplace df ["dateTime"];;
  exclude_and_return df exclude.

Definition load_resting_heart_rate_data (file : DataFrame) (exclude : bool)
  : M ref :=
  df ← new file;
  to_datetime_inplace df ["date"];;
  exclude_and_return df exclude.

Definition load_sleep_data (file : DataFrame) (exclude : bool) : M ref :=
  df ← new file;
  to_datetime_inplace df ["date"; "startDateTime"; "endDateTime"];;
  inplace df (set_index "date");;
  exclude_and_return df exclude.

Definition overall_score (d : DataFrame) : result DataFrame :=
  match sum_axis1 assessments d with
  | Ok totals => Ok (set_column "overall_score" totals d)
  | Raise e => Raise e
  end.

Definition load_roster (file : DataFrame) (exclude : bool) : M ref :=
  df ← new file;
  inplace df (set_index "subjectID");;
  inplace df (fun d => Ok (rename_columns (str_replace " " "_") d));;
  inplace df (fun d => Ok (rename_columns (str_replace "?" "_") d));;
  inplace df (fun d => Ok (rename_columns (str_replace "(" "_") d));;
  inplace df (fun d => Ok (rename_columns (str_replace ")" "_") d));;
  inplace df (drop_columns ["account_email"; "lastname"; "firstname"]);;
  inplace df (fun d => Ok (replace_everywhere (VStr "X") NaN d));;
  inplace df (drop_columns ["Quiz_9"; "Final"]);;
  inplace df overall_score;;
  exclude_and_return df exclude.

(** The loader of each registered data set. *)
Definition load (m : measure) : DataFrame -> bool -> M ref :=
  match m with
  | heart_rate => load_heart_rate_data
  | mult_measures => load_mult_measures_data
  | resting_heart_rate => load_resting_heart_rate_data
  | sleep => load_sleep_data
  | roster => load_roster
  end.

End Loaders.

(** ** Vocabulary of the statements *)

(** Row [r] of frame [d] belongs to an excluded subject. *)
Definition excluded_row (to_exclude : list string) (d : DataFrame) (r : Row)
  : Prop :=
  exists s, In s to_exclude /\ cell "subjectID" d r = VStr s.

#[export] Instance excluded_row_dec ex d r : Decision (excluded_row ex d r).
Proof.
  unfold excluded_row.
  destruct (cell "subjectID" d r) as [z|s|t|];
    try (right; intros (s' & _ & E); discriminate E).
  destruct (in_dec string_dec s ex) as [Hin|Hout].
  - left. exists s. split; [exact Hin | reflexivity].
  - right. intros (s' & Hin & E). inversion E; subst s'. exact (Hout Hin).
Defined.

Definition excluded_rowb (to_exclude : list string) (d : DataFrame) (r : Row)
  : bool :=
  existsb (value_eqb (cell "subjectID" d r)) (map VStr to_exclude).

(** The rows a loader keeps. *)
Definition survivors (exclude : bool) (d : DataFrame) : list Row :=
  if exclude
  then List.filter (fun r => negb (excluded_rowb excluded_subjects d r)) (rows d)
  else rows d.

(** A computation that never raises the validator's exception. *)
Definition quiet {A : Type} (m : M A) : Prop :=
  forall h msg, fst (m h) <> Raise (Exception_ msg).

Definition quiet_step (f : DataFrame -> result DataFrame) : Prop :=
  forall d msg, f d <> Raise (Exception_ msg).

(** A step on frames after another one. *)
Definition and_then (x : result DataFrame)
  (f : DataFrame -> result DataFrame) : result DataFrame :=
  match x with
  | Ok d => f d
  | Raise e => Raise e
  end.

(** The characters [load_roster] replaces in column names. *)
Definition special (a : ascii) : bool :=
  Ascii.eqb a " " || Ascii.eqb a "?" || Ascii.eqb a "(" || Ascii.eqb a ")".

Definition underscore (a : ascii) : ascii := if special a then "_"%char else a.

(** What a cell adds to a total when missing values count for zero. *)
Definition score (v : value) : Z :=
  match v with
  | VNum z => z
  | _ => 0%Z
  end.

Definition total (vs : list value) : Z :=
  fold_right Z.add 0%Z (map score vs).

Definition numeric_or_missing (v : value) : Prop :=
  v = NaN \/ exists z, v = VNum z.

(** The column names [load_roster] removes. *)
Definition removed_columns : list string :=
  ["account_email"; "lastname"; "firstname"; "Quiz_9"; "Final"].

(** A name that the renamings leave alone and that no renamed name can
    collide with: none of its characters is replaced or is an underscore. *)
Fixpoint plain (c : string) : bool :=
  match c with
  | EmptyString => true
  | String a c' => negb (special a) && negb (Ascii.eqb a "_") && plain c'
  end.

(** The header of the roster once names are sanitized and the five columns
    are removed, and the cells of a row at that point. *)
Definition kept_columns (file : DataFrame) : list string :=
  List.filter (fun k => negb (mem k removed_columns))
    (map sanitize (columns file)).

Definition kept_cells (file : DataFrame) (r : Row) : list value :=
  let cols1 := map sanitize (columns file) in
  let labels1 := ["account_email"; "lastname"; "firstname"] in
  let cols2 := List.filter (fun k => negb (mem k labels1)) cols1 in
  drop_cells ["Quiz_9"; "Final"] cols2
    (map (replace_value (VStr "X") NaN) (drop_cells labels1 cols1 (cells r))).

(** The header [load_roster] returns. *)
Definition roster_columns (file : DataFrame) : list string :=
  if mem "overall_score" (kept_columns file) then kept_columns file
  else kept_columns file ++ ["overall_score"].


(** The frame [load_roster] holds when it reaches the exclusion step. *)
Definition roster_frame (file : DataFrame) : result DataFrame :=
  and_then (and_then (and_then
    (set_index "subjectID" file)
    (fun d => drop_columns ["account_email"; "lastname"; "firstname"]
                (rename_columns sanitize d)))
    (fun d => drop_columns ["Quiz_9"; "Final"]
                (replace_everywhere (VStr "X") NaN d)))
    overall_score.

(** ** Sample data *)

(** A stand-in for [pd.to_datetime], used to run the loaders on the
    samples: a text of decimal digits is read as a count of seconds, any
    other text does not parse, a missing value stays missing. *)
Fixpoint digits (s : string) (acc : Z) : option Z :=
  match s with
  | EmptyString => Some acc
  | String a s' =>
      let n := Z.of_nat (nat_of_ascii a) in
      if ((48 <=? n) && (n <=? 57))%Z
      then digits s' (10 * acc + (n - 48))%Z
      else None
  end.

Definition seconds (v : value) : option value :=
  match v with
  | VStr s => option_map VDate (digits s 0%Z)
  | VNum z => Some (VDate z)
  | VDate t => Some (VDate t)
  | NaN => Some NaN
  end.

(** Three heart-rate records; MBL094 is an excluded subject. *)
Definition hr_sample : DataFrame :=
  mkDF ["subjectID"; "dateTime"; "bpm"]
    [mkRow (VNum 0) [VStr "MBL001"; VStr "1473933600"; VNum 0];
     mkRow (VNum 1) [VStr "MBL094"; VStr "1473933660"; VNum 80];
     mkRow (VNum 2) [VStr "MBL002"; VStr "1473933720"; VNum 72]].

(** A roster of three subjects; MBL011 is an excluded subject, the first
    row has Quiz_1 = 10, Quiz_2 marked X and Midterm_1 = 40, the last row
    has no score at all. *)
Definition roster_sample : DataFrame :=
  mkDF ["subjectID"; "lastname"; "firstname"; "account_email";
        "Exam (Retake)?";
        "Quiz_1"; "Quiz_2"; "Quiz_3"; "Midterm_1"; "Quiz_4"; "Quiz_5";
        "Quiz_6"; "Midterm_2"; "Quiz_7"; "Quiz_8"; "Midterm_3";
        "Quiz_9"; "Final"]
    [mkRow (VNum 0)
       [VStr "MBL001"; VStr "Doe"; VStr "Ann"; VStr "ann@example.org";
        VStr "X";
        VNum 10; VStr "X"; VNum 0; VNum 40; VNum 0; VNum 0;
        VNum 0; VNum 0; VNum 0; VNum 0; VNum 0;
        NaN; NaN];
     mkRow (VNum 1)
       [VStr "MBL011"; VStr "Roe"; VStr "Bob"; VStr "bob@example.org";
        VStr "yes";
        VNum 9; VNum 8; VNum 7; VNum 30; VNum 6; VNum 5;
        VNum 4; VNum 20; VNum 3; VNum 2; VNum 10;
        NaN; NaN];
     mkRow (VNum 2)
       [VStr "MBL003"; VStr "Poe"; VStr "Cy"; VStr "cy@example.org";
        NaN;
        VStr "X"; VStr "X"; NaN; NaN; NaN; NaN;
        NaN; NaN; NaN; NaN; NaN;
        NaN; NaN]].

(** The two rows [load_roster] returns for the sample. *)
Definition roster_row_1 : Row :=
  mkRow (VStr "MBL001")
    [VStr "MBL001"; NaN;
     VNum 10; NaN; VNum 0; VNum 40; VNum 0; VNum 0;
     VNum 0; VNum 0; VNum 0; VNum 0; VNum 0;
     VNum 50].

Definition roster_row_3 : Row :=
  mkRow (VStr "MBL003")
    [VStr "MBL003"; NaN;
     NaN; NaN; NaN; NaN; NaN; NaN;
     NaN; NaN; NaN; NaN; NaN;
     VNum 0].

Definition roster_loaded : DataFrame :=
  mkDF ["subjectID"; "Exam__Retake__";
        "Quiz_1"; "Quiz_2"; "Quiz_3"; "Midterm_1"; "Quiz_4"; "Quiz_5";
        "Quiz_6"; "Midterm_2"; "Quiz_7"; "Quiz_8"; "Midterm_3";
        "overall_score"]
    [roster_row_1; roster_row_3].

(** ** Further vocabulary *)




(** ** Further sample data *)


(** The same kind of file with an end time that does not parse. *)
Definition sleep_broken : DataFrame :=
  mkDF ["subjectID"; "date"; "startDateTime"; "endDateTime"]
    [mkRow (VNum 0)
       [VStr "MBL001"; VStr "1473897600"; VStr "1473894000"; VStr "n/a"]].


(** A frame without a subjectID column. *)
Definition unnamed_sample : DataFrame :=
  mkDF ["date"; "steps"]
    [mkRow (VNum 0) [VStr "1473897600"; VNum 9000]].

(** * Properties *)

(** ** Running computations *)

Lemma bind_run {A B : Type} (m : M A) (f : A -> M B) (h : store) :
  (m ≫= f) h =
  match m h with
  | (Ok a, h1) => f a h1
  | (Raise e, h1) => (Raise e, h1)
  end.
Proof. reflexivity. Qed.

Lemma bind_ok {A B : Type} (m : M A) (f : A -> M B) (h h' : store) (b : B) :
  (m ≫= f) h = (Ok b, h') ->
  exists a h1, m h = (Ok a, h1) /\ f a h1 = (Ok b, h').
Proof.
  rewrite bind_run. destruct (m h) as [[a|e] h1]; [eauto | discriminate].
Qed.

Lemma deref_run (r : ref) (h : store) (d : DataFrame) :
  h !! r = Some d -> deref r h = (Ok d, h).
Proof. intros E. unfold deref. now rewrite E. Qed.

Lemma deref_ok (r : ref) (h h' : store) (d : DataFrame) :
  deref r h = (Ok d, h') -> h !! r = Some d /\ h' = h.
Proof.
  unfold deref. destruct (h !! r); intros E; inversion E; auto.
Qed.

Lemma lift_ok {A : Type} (x : result A) (a : A) (h h' : store) :
  lift x h = (Ok a, h') -> x = Ok a /\ h' = h.
Proof. unfold lift. intros E; inversion E; auto. Qed.

(** An in-place operation on the most recent object of the store. *)
Lemma inplace_last (h : store) (d : DataFrame)
  (f : DataFrame -> result DataFrame) :
  inplace (length h) f (h ++ [d]) =
  match f d with
  | Ok d' => (Ok tt, h ++ [d'])
  | Raise e => (Raise e, h ++ [d])
  end.
Proof.
  unfold inplace. rewrite bind_run, (deref_run _ _ d).
  - rewrite bind_run. unfold lift. destruct (f d) as [d'|e]; [|reflexivity].
    unfold assign. f_equal.
    rewrite (insert_app_r_alt h [d] (length h)) by lia.
    now rewrite Nat.sub_diag.
  - apply list_lookup_middle. reflexivity.
Qed.

Lemma inplace_last_ok h d f u h' :
  inplace (length h) f (h ++ [d]) = (Ok u, h') ->
  exists d', f d = Ok d' /\ h' = h ++ [d'].
Proof.
  rewrite inplace_last. destruct (f d) as [d'|e]; intros E; inversion E; eauto.
Qed.

Lemma lookup_last (h : store) (d : DataFrame) : (h ++ [d]) !! length h = Some d.
Proof. apply list_lookup_middle. reflexivity. Qed.

(** ** Masks and by-name access *)

Lemma getitem_mask_filter (p : Row -> bool) (rs : list Row) :
  getitem_mask (map p rs) rs = List.filter p rs.
Proof.
  induction rs as [|r rs IH]; simpl; [reflexivity|].
  rewrite IH. reflexivity.
Qed.

Lemma value_eqb_VStr (v : value) (s : string) :
  value_eqb v (VStr s) = true <-> v = VStr s.
Proof.
  destruct v; simpl; try (split; [discriminate | intros E; inversion E]).
  rewrite String.eqb_eq. split; intros E; [now subst | now inversion E].
Qed.

Lemma value_eqb_sym (a b : value) : value_eqb a b = value_eqb b a.
Proof.
  destruct a, b; simpl; try reflexivity;
    first [apply Z.eqb_sym | apply String.eqb_sym].
Qed.

Lemma excluded_rowb_spec ex d r :
  excluded_rowb ex d r = true <-> excluded_row ex d r.
Proof.
  unfold excluded_rowb, excluded_row. rewrite existsb_exists. split.
  - intros (v & Hv & E). apply in_map_iff in Hv as (s & <- & Hs).
    apply value_eqb_VStr in E. eauto.
  - intros (s & Hs & E). exists (VStr s). split.
    + now apply in_map.
    + now apply value_eqb_VStr.
Qed.


Lemma filter_all {A : Type} (p : A -> bool) (l : list A) :
  (forall x, In x l -> p x = true) -> List.filter p l = l.
Proof.
  induction l as [|x l IH]; intros Hp; simpl; [reflexivity|].
  rewrite Hp by (now left). f_equal. apply IH. intros y Hy. apply Hp. now right.
Qed.

Lemma filter_idem {A : Type} (p : A -> bool) (l : list A) :
  List.filter p (List.filter p l) = List.filter p l.
Proof.
  apply filter_all. intros x Hx. now apply filter_In in Hx.
Qed.

Lemma isin_column ex d :
  invert (isin (map (cell "subjectID" d) (rows d)) (map VStr ex)) =
  map (fun r => negb (excluded_rowb ex d r)) (rows d).
Proof.
  unfold invert, isin. rewrite !map_map. reflexivity.
Qed.

Lemma any_isin ex (col : list value) :
  any (isin (map VStr ex) col) = true <->
  exists s, In s ex /\ In (VStr s) col.
Proof.
  unfold any, isin. rewrite existsb_exists. split.
  - intros (b & Hb & ->). apply in_map_iff in Hb as (v & E & Hv).
    apply in_map_iff in Hv as (s & <- & Hs).
    apply existsb_exists in E as (w & Hw & E).
    rewrite value_eqb_sym in E. apply value_eqb_VStr in E. subst w. eauto.
  - intros (s & Hs & Hc). exists true. split; [|reflexivity].
    apply in_map_iff. exists (VStr s). split; [|now apply in_map].
    apply existsb_exists. exists (VStr s). split; [assumption|].
    now apply value_eqb_VStr.
Qed.

(** ** The exclusion filter and the validator *)

Lemma remove_excluded_subjs_run h df d ex :
  h !! df = Some d ->
  has_col "subjectID" d = true ->
  remove_excluded_subjs df ex h =
  (Ok (length h),
   h ++ [mkDF (columns d)
           (List.filter (fun r => negb (excluded_rowb ex d r)) (rows d))]).
Proof.
  intros Hd Hc. unfold remove_excluded_subjs.
  rewrite bind_run, (deref_run _ _ _ Hd), bind_run.
  unfold lift, getattr. rewrite Hc. unfold new.
  now rewrite isin_column, getitem_mask_filter.
Qed.

Lemma remove_excluded_subjs_ok h df ex r h' :
  remove_excluded_subjs df ex h = (Ok r, h') ->
  exists d, h !! df = Some d /\ has_col "subjectID" d = true.
Proof.
  unfold remove_excluded_subjs. intros E.
  apply bind_ok in E as (d & h1 & E1 & E).
  apply deref_ok in E1 as [Hd ->].
  apply bind_ok in E as (col & h2 & E2 & _).
  apply lift_ok in E2 as [E2 _]. unfold getattr in E2.
  exists d. split; [assumption|].
  destruct (has_col "subjectID" d); [reflexivity | discriminate].
Qed.

Lemma check_subjects_removed_run h df d ex :
  h !! df = Some d ->
  has_col "subjectID" d = true ->
  check_subjects_removed df ex h =
  (if any (isin (map VStr ex) (map (cell "subjectID" d) (rows d)))
   then Raise (Exception_ "Some subjects not excluded.") else Ok tt, h).
Proof.
  intros Hd Hc. unfold check_subjects_removed.
  rewrite bind_run, (deref_run _ _ _ Hd), bind_run.
  unfold lift, getattr. rewrite Hc.
  now destruct (any _).
Qed.

Lemma check_subjects_removed_no_column h df d ex :
  h !! df = Some d ->
  has_col "subjectID" d = false ->
  check_subjects_removed df ex h = (Raise (AttributeError "subjectID"), h).
Proof.
  intros Hd Hc. unfold check_subjects_removed.
  rewrite bind_run, (deref_run _ _ _ Hd), bind_run.
  unfold lift, getattr. now rewrite Hc.
Qed.

Lemma any_isin_rows ex d :
  any (isin (map VStr ex) (map (cell "subjectID" d) (rows d))) = true <->
  exists r, In r (rows d) /\ excluded_row ex d r.
Proof.
  rewrite any_isin. split.
  - intros (s & Hs & Hc). apply in_map_iff in Hc as (r & E & Hr).
    exists r. split; [assumption|]. exists s. auto.
  - intros (r & Hr & s & Hs & E). exists s. split; [assumption|].
    rewrite <- E. now apply in_map.
Qed.

(** A frame without rows of excluded subjects passes the validator. *)
Lemma check_subjects_removed_pass h df d ex :
  h !! df = Some d ->
  has_col "subjectID" d = true ->
  (forall r, In r (rows d) -> ~ excluded_row ex d r) ->
  check_subjects_removed df ex h = (Ok tt, h).
Proof.
  intros Hd Hc Hex. rewrite (check_subjects_removed_run _ _ _ _ Hd Hc).
  destruct (any _) eqn:E; [|reflexivity].
  apply any_isin_rows in E as (r & Hr & Hx). now apply Hex in Hx.
Qed.

Lemma filtered_not_excluded ex d r :
  In r (List.filter (fun r => negb (excluded_rowb ex d r)) (rows d)) ->
  ~ excluded_row ex d r.
Proof.
  intros Hr Hx. apply filter_In in Hr as [_ Hr].
  apply excluded_rowb_spec in Hx. rewrite Hx in Hr. discriminate.
Qed.



(** C8: filtering a filtered frame again with the same identifiers
    succeeds and yields a frame equal to the filtered one. *)
Theorem remove_excluded_subjs_idempotent (h : store) (df : ref)
  (to_exclude : list string) (df1 : ref) (h1 : store) :
  remove_excluded_subjs df to_exclude h = (Ok df1, h1) ->
  exists df2 h2 once,
    remove_excluded_subjs df1 to_exclude h1 = (Ok df2, h2) /\
    h1 !! df1 = Some once /\
    h2 !! df1 = Some once /\
    h2 !! df2 = Some once.
Proof.
  intros E. destruct (remove_excluded_subjs_ok _ _ _ _ _ E) as (d & Hd & Hc).
  rewrite (remove_excluded_subjs_run _ _ _ _ Hd Hc) in E.
  inversion E; subst df1 h1; clear E.
  set (once := mkDF (columns d) _).
  assert (H1 : (h ++ [once]) !! length h = Some once) by apply lookup_last.
  eexists _, _, once.
  split; [apply (remove_excluded_subjs_run _ _ _ _ H1 Hc)|].
  split; [assumption|].
  split; [now apply lookup_app_l_Some|].
  rewrite lookup_last. f_equal. unfold once at 3. simpl. f_equal.
  rewrite (filter_ext _ (fun r => negb (excluded_rowb to_exclude d r)))
    by reflexivity.
  apply filter_idem.
Qed.

(** C10: called with no identifiers, the validator never raises its
    exception, whatever the frame; on a frame that has a subjectID column
    it returns normally, whatever the rows are. *)
Theorem check_subjects_removed_nothing (h : store) (df : ref) (d : DataFrame) :
  h !! df = Some d ->
  (forall msg, fst (check_subjects_removed df [] h) <> Raise (Exception_ msg)) /\
  (has_col "subjectID" d = true ->
   check_subjects_removed df [] h = (Ok tt, h)).
Proof.
  intros Hd.
  assert (Hpass : has_col "subjectID" d = true ->
            check_subjects_removed df [] h = (Ok tt, h)).
  { intros Hc. apply (check_subjects_removed_pass _ _ d); try assumption.
    intros r _ (s & [] & _). }
  split; [|exact Hpass].
  intros msg. destruct (has_col "subjectID" d) eqn:Hc.
  - rewrite (Hpass eq_refl). discriminate.
  - rewrite (check_subjects_removed_no_column _ _ _ _ Hd Hc). discriminate.
Qed.

(** ** Cells under a name, through the operations on a row *)

Lemma pick_nil_r c cols : pick c cols [] = [].
Proof. now destruct cols. Qed.

Lemma pick_map c cols (f : value -> value) cs :
  pick c cols (map f cs) = map f (pick c cols cs).
Proof.
  revert cs. induction cols as [|k cols IH]; intros [|v cs]; simpl; try reflexivity.
  rewrite IH. now destruct (String.eqb k c).
Qed.

Lemma pick_map_at c k f cols cs :
  pick c cols (map_at k f cols cs) =
  if String.eqb k c then map f (pick c cols cs) else pick c cols cs.
Proof.
  revert cs. induction cols as [|x cols IH]; intros [|v cs]; simpl;
    try (now destruct (String.eqb k c)).
  rewrite IH.
  destruct (String.eqb x c) eqn:Exc, (String.eqb x k) eqn:Exk,
    (String.eqb k c) eqn:Ekc; simpl; try reflexivity;
    rewrite ?String.eqb_eq, ?String.eqb_neq in *; congruence.
Qed.

Lemma pick_map_at_opt c k f cols cs cs' :
  map_at_opt k f cols cs = Some cs' ->
  k <> c ->
  pick c cols cs' = pick c cols cs.
Proof.
  intros E Hkc. revert cs cs' E.
  induction cols as [|x cols IH]; intros [|v cs] cs' E; simpl in E;
    try (inversion E; reflexivity).
  destruct (if String.eqb x k then f v else Some v) as [v'|] eqn:Ev;
    [|discriminate].
  destruct (map_at_opt k f cols cs) as [cs''|] eqn:Ecs; [|discriminate].
  inversion E; subst cs'; clear E. simpl.
  rewrite (IH _ _ Ecs).
  destruct (String.eqb x c) eqn:Exc; [|reflexivity].
  apply String.eqb_eq in Exc. subst x.
  apply String.eqb_neq in Hkc. rewrite String.eqb_sym in Hkc.
  rewrite Hkc in Ev. now inversion Ev.
Qed.

Lemma pick_drop_cells c labels cols cs :
  mem c labels = false ->
  pick c (List.filter (fun k => negb (mem k labels)) cols)
    (drop_cells labels cols cs) = pick c cols cs.
Proof.
  intros Hc. revert cs.
  induction cols as [|k cols IH]; intros [|v cs]; simpl; try reflexivity.
  - now rewrite pick_nil_r.
  - destruct (mem k labels) eqn:Ek; simpl.
    + rewrite IH. destruct (String.eqb k c) eqn:Ekc; [|reflexivity].
      apply String.eqb_eq in Ekc. congruence.
    + now rewrite IH.
Qed.

Lemma length_drop_cells labels cols cs :
  length cs = length cols ->
  length (drop_cells labels cols cs) =
  length (List.filter (fun k => negb (mem k labels)) cols).
Proof.
  revert cs. induction cols as [|k cols IH]; intros [|v cs] E; simpl in *;
    try reflexivity; try discriminate.
  injection E as E. destruct (mem k labels); simpl; now rewrite IH.
Qed.

Lemma length_map_at c f cols cs : length (map_at c f cols cs) = length cs.
Proof.
  revert cs. induction cols as [|k cols IH]; intros [|v cs]; simpl;
    try reflexivity.
  now rewrite IH.
Qed.

Lemma pick_app c cols cols2 cs cs2 :
  length cs = length cols ->
  pick c (cols ++ cols2) (cs ++ cs2) = pick c cols cs ++ pick c cols2 cs2.
Proof.
  revert cs. induction cols as [|k cols IH]; intros [|v cs] E; simpl in *;
    try reflexivity; try discriminate.
  injection E as E. rewrite (IH _ E). now destruct (String.eqb k c).
Qed.

Lemma pick_absent c cols cs : mem c cols = false -> pick c cols cs = [].
Proof.
  revert cs. induction cols as [|k cols IH]; intros [|v cs] E; simpl in *;
    try reflexivity.
  apply orb_false_iff in E as [E1 E2]. rewrite String.eqb_sym in E1.
  rewrite E1. now apply IH.
Qed.



Lemma hd_pick_set c v cols cs :
  mem c cols = true ->
  length cs = length cols ->
  hd NaN (pick c cols (map_at c (fun _ => v) cols cs)) = v.
Proof.
  revert cs. induction cols as [|k cols IH]; intros [|w cs] Hm E; simpl in *;
    try discriminate.
  injection E as E. rewrite String.eqb_sym in Hm.
  destruct (String.eqb k c) eqn:Ekc; [reflexivity|].
  simpl in Hm. now apply IH.
Qed.

(** The cells of a row after [df.loc[:, c'] = series]. *)
Lemma pick_set_cell_other c c' cols v cs :
  c <> c' ->
  length cs = length cols ->
  pick c (if mem c' cols then cols else cols ++ [c']) (set_cell c' cols v cs) =
  pick c cols cs.
Proof.
  intros Hc E. unfold set_cell. destruct (mem c' cols).
  - rewrite pick_map_at.
    destruct (String.eqb c' c) eqn:Ec; [|reflexivity].
    apply String.eqb_eq in Ec. congruence.
  - rewrite (pick_app _ _ _ _ _ E). simpl.
    destruct (String.eqb c' c) eqn:Ec; [|apply app_nil_r].
    apply String.eqb_eq in Ec. congruence.
Qed.

Lemma pick_set_cell_same c cols v cs :
  length cs = length cols ->
  hd NaN (pick c (if mem c cols then cols else cols ++ [c])
            (set_cell c cols v cs)) = v.
Proof.
  intros E. unfold set_cell. destruct (mem c cols) eqn:Hm.
  - now apply hd_pick_set.
  - rewrite (pick_app _ _ _ _ _ E), (pick_absent _ _ _ Hm). simpl.
    now rewrite String.eqb_refl.
Qed.

Lemma length_set_cell c cols v cs :
  length cs = length cols ->
  length (set_cell c cols v cs) =
  length (if mem c cols then cols else cols ++ [c]).
Proof.
  intros E. unfold set_cell. destruct (mem c cols).
  - now rewrite length_map_at.
  - rewrite !length_app. simpl. lia.
Qed.

(** ** Totals that skip missing values *)

Lemma nansum_total vs z :
  nansum vs = Some z -> z = total vs /\ Forall numeric_or_missing vs.
Proof.
  revert z. induction vs as [|v vs IH]; intros z E; simpl in E.
  - inversion E. split; [reflexivity | constructor].
  - destruct v as [x| | |]; try discriminate.
    + destruct (nansum vs) as [y|]; [|discriminate].
      inversion E; subst z. destruct (IH y eq_refl) as [-> HF].
      split; [reflexivity|]. constructor; [right; eauto | assumption].
    + destruct (IH z E) as [-> HF].
      split; [reflexivity|]. constructor; [now left | assumption].
Qed.


Lemma total_all_missing vs : Forall (fun v => v = NaN) vs -> total vs = 0%Z.
Proof.
  induction 1 as [|v vs -> _ IH]; [reflexivity|]. exact IH.
Qed.

(** ** Column-name sanitization *)

Lemma sanitize_cons a x :
  sanitize (String a x) = String (underscore a) (sanitize x).
Proof.
  unfold sanitize. simpl. f_equal. unfold underscore, special.
  destruct (Ascii.eqb_spec a " ") as [->|_]; [reflexivity|].
  destruct (Ascii.eqb_spec a "?") as [->|_]; [reflexivity|].
  destruct (Ascii.eqb_spec a "(") as [->|_]; [reflexivity|].
  destruct (Ascii.eqb_spec a ")") as [->|_]; reflexivity.
Qed.

Lemma sanitize_get x i :
  String.get i (sanitize x) = option_map underscore (String.get i x).
Proof.
  revert i. induction x as [|a x IH]; intros i; [reflexivity|].
  rewrite sanitize_cons. destruct i as [|i]; simpl; [reflexivity | apply IH].
Qed.

Lemma sanitize_length x : String.length (sanitize x) = String.length x.
Proof.
  induction x as [|a x IH]; [reflexivity|].
  rewrite sanitize_cons. simpl. now rewrite IH.
Qed.

Lemma underscore_eqb_plain a b :
  special b = false -> Ascii.eqb b "_" = false ->
  Ascii.eqb (underscore a) b = Ascii.eqb a b.
Proof.
  intros Hs Hu. unfold underscore. destruct (special a) eqn:Ha; [|reflexivity].
  rewrite Ascii.eqb_sym, Hu. symmetry. apply Ascii.eqb_neq. intros ->. congruence.
Qed.

Lemma sanitize_eqb_plain c k :
  plain c = true -> String.eqb (sanitize k) c = String.eqb k c.
Proof.
  revert c. induction k as [|a k IH]; intros [|b c] Hp; try reflexivity.
  rewrite sanitize_cons. simpl in *.
  apply andb_true_iff in Hp as [Hp Hc]. apply andb_true_iff in Hp as [Hs Hu].
  apply negb_true_iff in Hs, Hu.
  rewrite (underscore_eqb_plain _ _ Hs Hu), (IH _ Hc). reflexivity.
Qed.

Lemma pick_sanitize_plain c cols cs :
  plain c = true -> pick c (map sanitize cols) cs = pick c cols cs.
Proof.
  intros Hp. revert cs.
  induction cols as [|k cols IH]; intros [|v cs]; simpl; try reflexivity.
  rewrite (sanitize_eqb_plain _ _ Hp), IH. reflexivity.
Qed.


(** ** Frames through the steps of the loaders *)

Lemma mem_In c l : mem c l = true <-> In c l.
Proof.
  unfold mem. rewrite existsb_exists. split.
  - intros (k & Hk & E). apply String.eqb_eq in E. now subst.
  - intros H. exists c. split; [assumption | apply String.eqb_refl].
Qed.

Lemma mem_removed k :
  mem k removed_columns =
  mem k ["account_email"; "lastname"; "firstname"] || mem k ["Quiz_9"; "Final"].
Proof.
  unfold mem, removed_columns. simpl.
  destruct (String.eqb k "account_email"), (String.eqb k "lastname"),
    (String.eqb k "firstname"), (String.eqb k "Quiz_9"); reflexivity.
Qed.

Lemma filter_removed (l : list string) :
  List.filter (fun k => negb (mem k ["Quiz_9"; "Final"]))
    (List.filter
       (fun k => negb (mem k ["account_email"; "lastname"; "firstname"])) l) =
  List.filter (fun k => negb (mem k removed_columns)) l.
Proof.
  induction l as [|k l IH]; [reflexivity|].
  cbn [List.filter]. rewrite (mem_removed k).
  destruct (mem k ["account_email"; "lastname"; "firstname"]) eqn:E1;
    cbn [negb orb]; [exact IH|].
  cbn [List.filter]. rewrite IH. reflexivity.
Qed.

Lemma pick_kept_cells c file r :
  mem c removed_columns = false ->
  pick c (kept_columns file) (kept_cells file r) =
  map (replace_value (VStr "X") NaN)
    (pick c (map sanitize (columns file)) (cells r)).
Proof.
  intros Hc. rewrite mem_removed in Hc. apply orb_false_iff in Hc as [H1 H2].
  unfold kept_columns, kept_cells. rewrite <- filter_removed.
  rewrite (pick_drop_cells _ _ _ _ H2), pick_map, (pick_drop_cells _ _ _ _ H1).
  reflexivity.
Qed.

Lemma length_kept_cells file r :
  length (cells r) = length (columns file) ->
  length (kept_cells file r) = length (kept_columns file).
Proof.
  intros E. unfold kept_columns, kept_cells. rewrite <- filter_removed.
  apply length_drop_cells. rewrite length_map. apply length_drop_cells.
  now rewrite length_map.
Qed.

Lemma drop_columns_ok labels d d' :
  drop_columns labels d = Ok d' ->
  d' = mkDF (List.filter (fun k => negb (mem k labels)) (columns d))
         (map (on_cells (drop_cells labels (columns d))) (rows d)).
Proof.
  unfold drop_columns. destruct (first_missing labels (columns d));
    intros E; inversion E. reflexivity.
Qed.

Lemma set_index_ok c d d' :
  set_index c d = Ok d' ->
  has_col c d = true /\
  d' = mkDF (columns d) (map (fun r => mkRow (cell c d r) (cells r)) (rows d)).
Proof.
  unfold set_index. destruct (has_col c d); intros E; inversion E. auto.
Qed.

Lemma sum_axis1_ok labels d totals :
  sum_axis1 labels d = Ok totals ->
  exists zs, totals = map VNum zs /\
    Forall2 (fun r z => nansum (loc_cells labels (columns d) (cells r)) = Some z)
      (rows d) zs.
Proof.
  unfold sum_axis1. destruct (first_missing labels (columns d)); [discriminate|].
  destruct (mapM _ (rows d)) as [zs|] eqn:E; [|discriminate].
  intros E'. inversion E'. exists zs. split; [reflexivity|].
  now apply mapM_Some in E.
Qed.

Lemma zip_rows_Forall2 {A : Type} (g : A -> Row) (P : A -> Z -> Prop) f l zs :
  Forall2 P l zs ->
  Forall2 (fun x r' => exists z, P x z /\ r' = on_cells (f (VNum z)) (g x))
    l (zip_rows f (map VNum zs) (map g l)).
Proof.
  induction 1 as [|x z l zs H _ IH]; simpl; constructor; eauto.
Qed.

Lemma Forall2_map_l {A B C : Type} (R : B -> C -> Prop) (g : A -> B) l k :
  Forall2 R (map g l) k -> Forall2 (fun x y => R (g x) y) l k.
Proof.
  revert k. induction l as [|x l IH]; intros k H; inversion H; subst;
    constructor; auto.
Qed.

Lemma Forall2_filter {A B : Type} (R : A -> B -> Prop) (p : A -> bool)
  (q : B -> bool) l k :
  Forall2 R l k ->
  (forall x y, R x y -> p x = q y) ->
  Forall2 R (List.filter p l) (List.filter q k).
Proof.
  intros H Hpq. induction H as [|x y l k Hxy _ IH]; simpl; [constructor|].
  rewrite (Hpq _ _ Hxy). destruct (q y); [constructor|]; assumption.
Qed.

Lemma Forall2_In_r {A B : Type} (R : A -> B -> Prop) l k y :
  Forall2 R l k -> In y k -> exists x, In x l /\ R x y.
Proof.
  induction 1 as [|x y' l k Hxy _ IH]; intros Hy; [contradiction|].
  destruct Hy as [->|Hy]; [exists x; split; [now left | assumption]|].
  destruct (IH Hy) as (x' & Hx' & HR). exists x'. split; [now right | assumption].
Qed.

Lemma roster_frame_ok file d :
  roster_frame file = Ok d ->
  has_col "subjectID" file = true /\
  columns d = roster_columns file /\
  Forall2
    (fun rin rd => exists z,
       nansum (loc_cells assessments (kept_columns file) (kept_cells file rin))
         = Some z /\
       rd = mkRow (cell "subjectID" file rin)
              (set_cell "overall_score" (kept_columns file) (VNum z)
                 (kept_cells file rin)))
    (rows file) (rows d).
Proof.
  unfold roster_frame, and_then.
  destruct (set_index "subjectID" file) as [d0|] eqn:E0; [|discriminate].
  apply set_index_ok in E0 as [Hc ->].
  destruct (drop_columns _ _) as [d2|] eqn:E2; [|discriminate].
  apply drop_columns_ok in E2. subst d2.
  destruct (drop_columns _ _) as [d4|] eqn:E4; [|discriminate].
  apply drop_columns_ok in E4. subst d4.
  unfold overall_score.
  destruct (sum_axis1 _ _) as [totals|] eqn:Es; [|discriminate].
  apply sum_axis1_ok in Es as (zs & -> & Hz).
  intros E. inversion E; subst d; clear E.
  split; [assumption|].
  cbn [columns rows rename_columns replace_everywhere set_column] in *.
  rewrite filter_removed in *. fold (kept_columns file) in *.
  split; [reflexivity|].
  rewrite !map_map in *. apply Forall2_map_l in Hz.
  eapply Forall2_impl; [apply (zip_rows_Forall2 _ _ _ _ _ Hz)|].
  intros rin rd (z & Hn & ->). exists z. split; [exact Hn | reflexivity].
Qed.



Lemma Forall2_Forall_l {A B : Type} (P : A -> Prop) (R : A -> B -> Prop) l k :
  Forall P l -> Forall2 R l k -> Forall2 (fun x y => P x /\ R x y) l k.
Proof.
  intros HP H. induction H as [|x y l k Hxy _ IH]; [constructor|].
  inversion HP; subst. constructor; auto.
Qed.

Lemma loc_cells_ext labels cols cs cols' cs' :
  (forall c, In c labels -> pick c cols cs = pick c cols' cs') ->
  loc_cells labels cols cs = loc_cells labels cols' cs'.
Proof.
  unfold loc_cells. induction labels as [|c labels IH]; intros H; simpl;
    [reflexivity|].
  rewrite (H c) by (now left). f_equal. apply IH. intros k Hk. apply H. now right.
Qed.

Lemma assessments_kept c :
  In c assessments -> mem c removed_columns = false /\ c <> "overall_score".
Proof.
  unfold assessments. simpl.
  intros H. repeat (destruct H as [<-|H]; [split; [reflexivity | discriminate]|]).
  contradiction.
Qed.

(** The rows of the frame [load_roster] has built, against the rows read. *)
Lemma roster_frame_rows file d :
  roster_frame file = Ok d ->
  rectangular file ->
  Forall2
    (fun rin rd =>
       label rd = cell "subjectID" file rin /\
       length (cells rd) = length (columns d) /\
       (forall c, mem c removed_columns = false -> c <> "overall_score" ->
          pick c (columns d) (cells rd) =
          map (replace_value (VStr "X") NaN)
            (pick c (map sanitize (columns file)) (cells rin))) /\
       exists z, cell "overall_score" d rd = VNum z /\
         nansum (loc_cells assessments (columns d) (cells rd)) = Some z)
    (rows file) (rows d).
Proof.
  intros E Hrect. apply roster_frame_ok in E as (_ & Hcols & Hrows).
  eapply Forall2_impl; [apply (Forall2_Forall_l _ _ _ _ Hrect Hrows)|].
  intros rin rd (Hlen & z & Hz & ->). cbn [label cells].
  apply length_kept_cells in Hlen.
  assert (Hpick : forall c, mem c removed_columns = false ->
            c <> "overall_score" ->
            pick c (columns d)
              (set_cell "overall_score" (kept_columns file) (VNum z)
                 (kept_cells file rin)) =
            pick c (kept_columns file) (kept_cells file rin)).
  { intros c _ Hos. rewrite Hcols. unfold roster_columns.
    now apply pick_set_cell_other. }
  split; [reflexivity|]. split; [|split].
  - rewrite Hcols. unfold roster_columns. now apply length_set_cell.
  - intros c Hc Hos. rewrite (Hpick c Hc Hos). now apply pick_kept_cells.
  - exists z. split.
    + unfold cell. cbn [cells]. rewrite Hcols. unfold roster_columns.
      now apply pick_set_cell_same.
    + rewrite <- Hz. f_equal. apply loc_cells_ext. intros c Hc.
      apply assessments_kept in Hc as [Hc Hos]. now apply Hpick.
Qed.

Lemma Forall2_compose {A B C : Type} (P : A -> B -> Prop) (Q : B -> C -> Prop)
  (R : A -> C -> Prop) l k m :
  (forall x y z, P x y -> Q y z -> R x z) ->
  Forall2 P l k -> Forall2 Q k m -> Forall2 R l m.
Proof.
  intros HR H. revert m. induction H as [|x y l k Hxy _ IH]; intros m Hm;
    inversion Hm; subst; constructor; eauto.
Qed.

Lemma Forall2_diag_all {A : Type} (R : A -> A -> Prop) l :
  (forall x, R x x) -> Forall2 R l l.
Proof. intros H. induction l; constructor; auto. Qed.

(** ** The loaders, step by step *)

Lemma frame_eta d : mkDF (columns d) (rows d) = d.
Proof. now destruct d. Qed.

Lemma excluded_replace_X v :
  existsb (value_eqb (replace_value (VStr "X") NaN v))
    (map VStr excluded_subjects) =
  existsb (value_eqb v) (map VStr excluded_subjects).
Proof.
  unfold replace_value. destruct (value_eqb v (VStr "X")) eqn:E; [|reflexivity].
  apply value_eqb_VStr in E. subst v. reflexivity.
Qed.

(** Rows related one to one stay so when excluded subjects are removed on
    both sides, provided related rows carry the same identifier. *)
Lemma survivors_Forall2 (R : Row -> Row -> Prop) exclude a b :
  Forall2 R (rows a) (rows b) ->
  (forall x y, R x y ->
     excluded_rowb excluded_subjects a x = excluded_rowb excluded_subjects b y) ->
  Forall2 R (survivors exclude a) (survivors exclude b).
Proof.
  intros H Hx. unfold survivors. destruct exclude; [|assumption].
  apply Forall2_filter; [assumption|].
  intros x y Hxy. now rewrite (Hx _ _ Hxy).
Qed.

(** The common tail of the loaders. *)
Lemma exclude_and_return_ok df exclude h d r h' :
  h !! df = Some d ->
  exclude_and_return df exclude h = (Ok r, h') ->
  h' !! r = Some (mkDF (columns d) (survivors exclude d)) /\
  (exclude = true ->
   has_col "subjectID" d = true /\
   check_subjects_removed r excluded_subjects h' = (Ok tt, h')).
Proof.
  intros Hd E. unfold exclude_and_return in E. destruct exclude.
  - apply bind_ok in E as (df' & h1 & E1 & E).
    destruct (remove_excluded_subjs_ok _ _ _ _ _ E1) as (d0 & Hd0 & Hc).
    assert (d0 = d) by congruence. subst d0.
    rewrite (remove_excluded_subjs_run _ _ _ _ Hd Hc) in E1.
    inversion E1; subst df' h1; clear E1.
    apply bind_ok in E as (u & h2 & E2 & E).
    set (out := mkDF (columns d) _) in *.
    assert (Hout : (h ++ [out]) !! length h = Some out) by apply lookup_last.
    rewrite (check_subjects_removed_run _ _ _ _ Hout Hc) in E2.
    destruct (any _) eqn:Ea; [discriminate|].
    inversion E2; subst h2; clear E2.
    inversion E; subst r h'; clear E.
    split; [exact Hout|]. intros _. split; [exact Hc|].
    rewrite (check_subjects_removed_run _ _ _ _ Hout Hc). now rewrite Ea.
  - inversion E; subst r h'. simpl. rewrite frame_eta.
    split; [assumption | discriminate].
Qed.

Section LoaderFacts.

Variable to_datetime : value -> option value.

Lemma to_datetime_column_ok c d d' :
  to_datetime_column to_datetime c d = Ok d' ->
  columns d' = columns d /\
  Forall2
    (fun r r' => label r' = label r /\
       forall k, k <> c ->
         pick k (columns d) (cells r') = pick k (columns d) (cells r))
    (rows d) (rows d').
Proof.
  unfold to_datetime_column. destruct (has_col c d); [|discriminate].
  destruct (mapM _ (rows d)) as [rs|] eqn:E; [|discriminate].
  intros E'. inversion E'; subst d'; clear E'. split; [reflexivity|].
  apply mapM_Some in E. cbn [rows].
  eapply Forall2_impl; [exact E|]. intros r r' Hr. cbn beta in Hr.
  destruct (map_at_opt c to_datetime (columns d) (cells r)) as [cs|] eqn:Ecs;
    [|discriminate].
  inversion Hr; subst r'. cbn [label cells]. split; [reflexivity|].
  intros k Hk. apply (pick_map_at_opt _ _ _ _ _ _ Ecs). congruence.
Qed.

Lemma to_datetime_inplace_ok cols h d u h' :
  to_datetime_inplace to_datetime (length h) cols (h ++ [d]) = (Ok u, h') ->
  exists d', h' = h ++ [d'] /\ columns d' = columns d /\
    Forall2
      (fun r r' => label r' = label r /\
         forall k, ~ In k cols ->
           pick k (columns d) (cells r') = pick k (columns d) (cells r))
      (rows d) (rows d').
Proof.
  revert d. induction cols as [|c cols IH]; intros d E; simpl in E.
  - inversion E; subst h'. exists d. split; [reflexivity|].
    split; [reflexivity|]. apply Forall2_diag_all. auto.
  - apply bind_ok in E as (u1 & h1 & E1 & E).
    apply inplace_last_ok in E1 as (d1 & E1 & ->).
    apply to_datetime_column_ok in E1 as [Hc1 H1].
    apply IH in E as (d' & -> & Hc & H).
    exists d'. split; [reflexivity|]. split; [congruence|].
    eapply Forall2_compose; [|exact H1|exact H].
    intros x y z [Hl1 Hp1] [Hl2 Hp2]. split; [congruence|].
    intros k Hk. rewrite Hc1 in Hp2. rewrite Hp2, Hp1.
    + reflexivity.
    + intros ->. apply Hk. now left.
    + intros Hin. apply Hk. now right.
Qed.

Ltac run_new E :=
  let a := fresh "a" in let h1 := fresh "h" in let E1 := fresh "E" in
  apply bind_ok in E as (a & h1 & E1 & E);
  unfold new in E1; inversion E1; subst a h1; clear E1.

Ltac run_dates E d H :=
  let a := fresh "a" in let h1 := fresh "h" in let E1 := fresh "E" in
  apply bind_ok in E as (a & h1 & E1 & E);
  apply to_datetime_inplace_ok in E1 as (d & -> & H).

Ltac run_inplace E d H :=
  let a := fresh "a" in let h1 := fresh "h" in
  apply bind_ok in E as (a & h1 & H & E);
  apply inplace_last_ok in H as (d & H & ->).

Lemma load_heart_rate_data_ok file exclude h r h' :
  load_heart_rate_data to_datetime file exclude h = (Ok r, h') ->
  exists d,
    exclude_and_return (length h) exclude (h ++ [d]) = (Ok r, h') /\
    columns d = columns file /\
    Forall2
      (fun rin rd =>
         pick "bpm" (columns file) (cells rd) =
           map (replace_value (VNum 0) NaN)
             (pick "bpm" (columns file) (cells rin)) /\
         pick "subjectID" (columns file) (cells rd) =
           pick "subjectID" (columns file) (cells rin))
      (rows file) (rows d).
Proof.
  unfold load_heart_rate_data. intros E.
  run_new E. run_inplace E d1 E1. run_dates E d2 H2.
  exists d2. split; [exact E|].
  unfold replace_in_column in E1. destruct (has_col "bpm" file); [|discriminate].
  inversion E1; subst d1; clear E1. destruct H2 as [Hc H2]. cbn [columns rows] in *.
  split; [exact Hc|].
  apply Forall2_map_l in H2. eapply Forall2_impl; [exact H2|].
  intros rin rd [_ Hp]. cbn [cells on_cells] in Hp.
  rewrite !Hp by (intros [E'|[]]; discriminate E').
  rewrite !pick_map_at. split; reflexivity.
Qed.

Lemma load_roster_ok file exclude h r h' :
  load_roster file exclude h = (Ok r, h') ->
  exists d,
    roster_frame file = Ok d /\
    exclude_and_return (length h) exclude (h ++ [d]) = (Ok r, h').
Proof.
  unfold load_roster. intros E.
  run_new E. run_inplace E d0 E0.
  run_inplace E d1 E1. run_inplace E d2 E2. run_inplace E d3 E3.
  run_inplace E d4 E4. run_inplace E d5 E5. run_inplace E d6 E6.
  run_inplace E d7 E7. run_inplace E d8 E8.
  exists d8. split; [|exact E].
  inversion E1; subst d1. inversion E2; subst d2. inversion E3; subst d3.
  inversion E4; subst d4. inversion E6; subst d6. clear E1 E2 E3 E4 E6.
  unfold roster_frame, and_then. rewrite E0.
  replace (rename_columns sanitize d0) with
    (rename_columns (str_replace ")" "_")
       (rename_columns (str_replace "(" "_")
          (rename_columns (str_replace "?" "_")
             (rename_columns (str_replace " " "_") d0)))).
  - rewrite E5, E7. exact E8.
  - unfold rename_columns. cbn [columns rows]. f_equal.
    rewrite !map_map. reflexivity.
Qed.

(** Every loader ends in the exclusion step, run on the frame it built. *)
Lemma load_ok m file exclude h r h' :
  load to_datetime m file exclude h = (Ok r, h') ->
  exists d, exclude_and_return (length h) exclude (h ++ [d]) = (Ok r, h').
Proof.
  destruct m; cbn [load]; intros E.
  - apply load_heart_rate_data_ok in E as (d & E & _). eauto.
  - unfold load_mult_measures_data in E. run_new E. run_dates E d H. eauto.
  - unfold load_resting_heart_rate_data in E. run_new E. run_dates E d H. eauto.
  - unfold load_sleep_data in E. run_new E. run_dates E d H.
    run_inplace E d' H'. eauto.
  - apply load_roster_ok in E as (d & _ & E). eauto.
Qed.

End LoaderFacts.

(** ** The validator never fires in a loader *)

Lemma quiet_bind {A B : Type} (m : M A) (f : A -> M B) :
  quiet m -> (forall a, quiet (f a)) -> quiet (m ≫= f).
Proof.
  intros Hm Hf h msg. rewrite bind_run.
  specialize (Hm h msg). destruct (m h) as [[a|e] h1]; [apply Hf|].
  simpl in *. intros E. apply Hm. inversion E. reflexivity.
Qed.

Lemma quiet_ret {A : Type} (a : A) : quiet (mret a).
Proof. intros h msg. discriminate. Qed.

Lemma quiet_new d : quiet (new d).
Proof. intros h msg. discriminate. Qed.

Lemma quiet_inplace r f : quiet_step f -> quiet (inplace r f).
Proof.
  intros Hf h msg. unfold inplace. rewrite bind_run. unfold deref.
  destruct (h !! r) as [d|]; [|discriminate].
  rewrite bind_run. unfold lift. specialize (Hf d msg).
  destruct (f d); [discriminate|].
  simpl. intros E. apply Hf. inversion E. reflexivity.
Qed.

Lemma quiet_replace_in_column c old new : quiet_step (replace_in_column c old new).
Proof. intros d msg. unfold replace_in_column. now destruct (has_col c d). Qed.

Lemma quiet_set_index c : quiet_step (set_index c).
Proof. intros d msg. unfold set_index. now destruct (has_col c d). Qed.

Lemma quiet_drop_columns labels : quiet_step (drop_columns labels).
Proof.
  intros d msg. unfold drop_columns.
  now destruct (first_missing labels (columns d)).
Qed.

Lemma quiet_overall_score : quiet_step overall_score.
Proof.
  intros d msg. unfold overall_score, sum_axis1.
  destruct (first_missing assessments (columns d)); [discriminate|].
  now destruct (mapM _ (rows d)).
Qed.

Lemma quiet_total (f : DataFrame -> DataFrame) : quiet_step (fun d => Ok (f d)).
Proof. intros d msg. discriminate. Qed.

(** The validator accepts what the filter returns. *)
Lemma filter_then_validate h df to_exclude df1 h1 :
  remove_excluded_subjs df to_exclude h = (Ok df1, h1) ->
  check_subjects_removed df1 to_exclude h1 = (Ok tt, h1).
Proof.
  intros E. destruct (remove_excluded_subjs_ok _ _ _ _ _ E) as (d & Hd & Hc).
  rewrite (remove_excluded_subjs_run _ _ _ _ Hd Hc) in E.
  inversion E; subst df1 h1; clear E.
  eapply check_subjects_removed_pass; [apply lookup_last | exact Hc |].
  intros r Hr. cbn [rows] in Hr. apply filtered_not_excluded in Hr.
  exact Hr.
Qed.

Lemma quiet_remove_excluded_subjs df to_exclude :
  quiet (remove_excluded_subjs df to_exclude).
Proof.
  intros h msg. unfold remove_excluded_subjs. rewrite bind_run. unfold deref.
  destruct (h !! df) as [d|]; [|discriminate].
  rewrite bind_run. unfold lift, getattr.
  now destruct (has_col "subjectID" d).
Qed.

Lemma quiet_exclude_and_return df exclude : quiet (exclude_and_return df exclude).
Proof.
  intros h msg. unfold exclude_and_return.
  destruct exclude; [|discriminate].
  rewrite bind_run.
  pose proof (quiet_remove_excluded_subjs df excluded_subjects h msg) as Hq.
  destruct (remove_excluded_subjs df excluded_subjects h) as [[df1|e] h1] eqn:E.
  - rewrite bind_run, (filter_then_validate _ _ _ _ _ E). discriminate.
  - simpl in *. intros E'. apply Hq. inversion E'. reflexivity.
Qed.

Lemma lookup_map {A B : Type} (f : A -> B) (l : list A) (j : nat) :
  map f l !! j = option_map f (l !! j).
Proof.
  revert j. induction l as [|x l IH]; intros [|j]; simpl; try reflexivity.
  apply IH.
Qed.

Lemma hd_map_fixed (f : value -> value) (l : list value) :
  f NaN = NaN -> hd NaN (map f l) = f (hd NaN l).
Proof. intros H. now destruct l. Qed.




Lemma survivors_In exclude d r : In r (survivors exclude d) -> In r (rows d).
Proof.
  unfold survivors. destruct exclude; [|auto].
  intros H. now apply filter_In in H.
Qed.

(** What [load_roster] returns: the frame it built, without the rows of
    excluded subjects. *)
Lemma load_roster_result file exclude h r h' out :
  load_roster file exclude h = (Ok r, h') ->
  h' !! r = Some out ->
  exists d, roster_frame file = Ok d /\
    out = mkDF (columns d) (survivors exclude d).
Proof.
  intros E Hout. apply load_roster_ok in E as (d & Hd & E).
  apply (exclude_and_return_ok _ _ _ d) in E as [E _]; [|apply lookup_last].
  exists d. split; [exact Hd | congruence].
Qed.

(** ** The roster loader *)


(** C9: in the frame [load_roster] returns for a rectangular roster, a row
    in which every cell under an assessment name is missing has
    overall_score 0, a number and not the missing marker. *)
Theorem load_roster_all_missing (file : DataFrame) (exclude : bool)
  (h : store) (r : ref) (h' : store) (out : DataFrame) (row : Row) :
  rectangular file ->
  load_roster file exclude h = (Ok r, h') ->
  h' !! r = Some out ->
  In row (rows out) ->
  (forall c, In c assessments ->
     Forall (fun v => v = NaN) (pick c (columns out) (cells row))) ->
  cell "overall_score" out row = VNum 0.
Proof.
  intros Hrect E Hout Hrow Hmiss.
  destruct (load_roster_result _ _ _ _ _ _ E Hout) as (d & Hd & ->).
  cbn [columns rows] in *. apply survivors_In in Hrow.
  destruct (Forall2_In_r _ _ _ _ (roster_frame_rows _ _ Hd Hrect) Hrow)
    as (rin & _ & _ & _ & _ & z & Hz & Hsum).
  apply nansum_total in Hsum as [-> _].
  change (cell "overall_score" d row = VNum 0).
  rewrite Hz. f_equal. apply total_all_missing.
  unfold loc_cells. apply Forall_flat_map, List.Forall_forall. exact Hmiss.
Qed.

(** C6: in the frame [load_roster] returns for a rectangular roster, take a
    row and the row it was read from, and a column name that is neither
    removed nor overall_score; wherever the source row holds the text X
    under that (sanitized) name, the returned row holds the missing marker.
    The name ranges over all columns, subjectID included. *)
Theorem load_roster_recodes_X (file : DataFrame) (exclude : bool)
  (h : store) (r : ref) (h' : store) (out : DataFrame) :
  rectangular file ->
  load_roster file exclude h = (Ok r, h') ->
  h' !! r = Some out ->
  Forall2
    (fun rin rout =>
       forall c j, ~ In c removed_columns -> c <> "overall_score" ->
         pick c (map sanitize (columns file)) (cells rin) !! j
           = Some (VStr "X") ->
         pick c (columns out) (cells rout) !! j = Some NaN)
    (survivors exclude file) (rows out).
Proof.
  intros Hrect E Hout.
  destruct (load_roster_result _ _ _ _ _ _ E Hout) as (d & Hd & ->).
  cbn [columns rows].
  pose proof (roster_frame_rows _ _ Hd Hrect) as Hrows.
  eapply Forall2_impl.
  - apply (survivors_Forall2 _ exclude file d Hrows).
    intros x y (_ & _ & Hp & _). unfold excluded_rowb, cell.
    rewrite (Hp "subjectID") by (reflexivity || discriminate).
    rewrite pick_sanitize_plain by reflexivity.
    rewrite hd_map_fixed by reflexivity.
    now rewrite excluded_replace_X.
  - intros rin rout (_ & _ & Hp & _) c j Hc Hos Hx.
    rewrite (Hp c); [|now apply not_true_iff_false; rewrite mem_In|exact Hos].
    rewrite lookup_map, Hx. reflexivity.
Qed.

(** C7: sanitizing a column name replaces each occurrence of a space, a
    question mark or a parenthesis by an underscore and leaves every other
    character, position by position; "Exam (Retake)?" becomes
    "Exam__Retake__"; and the header [load_roster] returns consists of the
    sanitized names of the roster (less the removed columns, plus
    overall_score). *)
Theorem sanitize_spec :
  (forall x i, String.get i (sanitize x) = option_map underscore (String.get i x)) /\
  (forall x, String.length (sanitize x) = String.length x) /\
  sanitize "Exam (Retake)?" = "Exam__Retake__" /\
  (forall file exclude h r h' out,
     load_roster file exclude h = (Ok r, h') ->
     h' !! r = Some out ->
     columns out = roster_columns file).
Proof.
  split; [exact sanitize_get|]. split; [exact sanitize_length|].
  split; [reflexivity|].
  intros file exclude h r h' out E Hout.
  destruct (load_roster_result _ _ _ _ _ _ E Hout) as (d & Hd & ->).
  now apply roster_frame_ok in Hd.
Qed.

Section LoaderTheorems.

Variable to_datetime : value -> option value.

(** C5: in the frame the heart-rate loader returns, row by row against the
    rows read (those of excluded subjects left out when [exclude] is set):
    where the file has bpm 0 the frame has the missing marker, and where
    the file has any other bpm the frame has that same value. *)
Theorem load_heart_rate_data_bpm (file : DataFrame) (exclude : bool)
  (h : store) (r : ref) (h' : store) (out : DataFrame) :
  load_heart_rate_data to_datetime file exclude h = (Ok r, h') ->
  h' !! r = Some out ->
  Forall2
    (fun rin rout =>
       (cell "bpm" file rin = VNum 0 -> cell "bpm" out rout = NaN) /\
       (cell "bpm" file rin <> VNum 0 ->
        cell "bpm" out rout = cell "bpm" file rin))
    (survivors exclude file) (rows out).
Proof.
  intros E Hout.
  apply load_heart_rate_data_ok in E as (d & E & Hcols & Hrows).
  apply (exclude_and_return_ok _ _ _ d) in E as [E _]; [|apply lookup_last].
  assert (out = mkDF (columns d) (survivors exclude d)) as -> by congruence.
  cbn [rows]. eapply Forall2_impl.
  - apply (survivors_Forall2 _ exclude file d Hrows).
    intros x y [_ Hs]. unfold excluded_rowb, cell. now rewrite Hcols, Hs.
  - intros rin rout [Hb _]. unfold cell. cbn [columns]. rewrite Hcols, Hb.
    rewrite hd_map_fixed by reflexivity.
    unfold replace_value. split.
    + intros ->. reflexivity.
    + intros Hn. destruct (value_eqb _ _) eqn:Ev; [|reflexivity].
      destruct (hd NaN _) as [z| | |]; simpl in Ev; try discriminate.
      apply Z.eqb_eq in Ev. now subst z.
Qed.

Lemma quiet_to_datetime_column c : quiet_step (to_datetime_column to_datetime c).
Proof.
  intros d msg. unfold to_datetime_column. destruct (has_col c d); [|discriminate].
  now destruct (mapM _ (rows d)).
Qed.

Lemma quiet_to_datetime_inplace df cols :
  quiet (to_datetime_inplace to_datetime df cols).
Proof.
  induction cols as [|c cols IH]; simpl; [apply quiet_ret|].
  apply quiet_bind; [|intros _; exact IH].
  apply quiet_inplace, quiet_to_datetime_column.
Qed.

Lemma quiet_load m file exclude : quiet (load to_datetime m file exclude).
Proof.
  destruct m; cbn [load];
    unfold load_heart_rate_data, load_mult_measures_data,
      load_resting_heart_rate_data, load_sleep_data, load_roster;
    repeat first
      [ apply quiet_exclude_and_return
      | apply quiet_to_datetime_inplace
      | apply quiet_new
      | apply quiet_inplace
      | apply quiet_replace_in_column
      | apply quiet_set_index
      | apply quiet_drop_columns
      | apply quiet_overall_score
      | apply quiet_total
      | apply quiet_bind; [|intros ?] ].
Qed.

(** C1: for each of the five loaders called with [exclude] set: the
    validator's exception is never the outcome; when the loader returns a
    frame, no cell of its subjectID column is an identifier of
    [excluded_subjects] and the validator run on it again passes; and, for
    any frame and any identifiers, the validator run right after the filter
    returns normally. *)
Theorem loaders_exclude (m : measure) (file : DataFrame) (h : store) :
  (forall msg,
     fst (load to_datetime m file true h) <> Raise (Exception_ msg)) /\
  (forall r h' out,
     load to_datetime m file true h = (Ok r, h') ->
     h' !! r = Some out ->
     (forall row s, In row (rows out) -> In s excluded_subjects ->
        cell "subjectID" out row <> VStr s) /\
     check_subjects_removed r excluded_subjects h' = (Ok tt, h')) /\
  (forall h0 df to_exclude df1 h1,
     remove_excluded_subjs df to_exclude h0 = (Ok df1, h1) ->
     check_subjects_removed df1 to_exclude h1 = (Ok tt, h1)).
Proof.
  split; [intros msg; apply quiet_load|].
  split; [|exact filter_then_validate].
  intros r h' out E Hout.
  apply load_ok in E as (d & E).
  apply (exclude_and_return_ok _ _ _ d) in E as [E Hx]; [|apply lookup_last].
  destruct (Hx eq_refl) as [Hc Hcheck]. split; [|exact Hcheck].
  assert (out = mkDF (columns d) (survivors true d)) as -> by congruence.
  intros row s Hrow Hs Hcell. cbn [rows survivors] in Hrow.
  apply filtered_not_excluded in Hrow. apply Hrow. exists s. auto.
Qed.

End LoaderTheorems.

(** ** The roster loader returns *)







Lemma exclude_and_return_returns df exclude h d :
  h !! df = Some d ->
  has_col "subjectID" d = true ->
  exists r h', exclude_and_return df exclude h = (Ok r, h').
Proof.
  intros Hd Hc. unfold exclude_and_return. destruct exclude; [|eexists _, _; reflexivity].
  pose proof (remove_excluded_subjs_run _ _ _ excluded_subjects Hd Hc) as E.
  rewrite bind_run, E, bind_run, (filter_then_validate _ _ _ _ _ E).
  eexists _, _. reflexivity.
Qed.


(** ** The heart-rate loader returns *)

Section LoaderReturns.

Variable to_datetime : value -> option value.

Lemma map_at_opt_some c cols cs :
  Forall (fun v => is_Some (to_datetime v)) (pick c cols cs) ->
  is_Some (map_at_opt c to_datetime cols cs).
Proof.
  revert cs. induction cols as [|k cols IH]; intros [|v cs] H; simpl in *;
    try (eexists; reflexivity).
  destruct (String.eqb k c).
  - inversion H as [|? ? [v' Hv] Hrest]; subst. rewrite Hv.
    destruct (IH _ Hrest) as [cs' ->]. eexists; reflexivity.
  - destruct (IH _ H) as [cs' ->]. eexists; reflexivity.
Qed.

Lemma to_datetime_column_returns c d :
  has_col c d = true ->
  (forall r, In r (rows d) ->
     Forall (fun v => is_Some (to_datetime v)) (pick c (columns d) (cells r))) ->
  exists d', to_datetime_column to_datetime c d = Ok d'.
Proof.
  intros Hc Hp. unfold to_datetime_column. rewrite Hc.
  destruct (mapM _ (rows d)) as [rs|] eqn:E; [eauto|].
  exfalso. apply eq_None_not_Some in E. apply E. clear E.
  apply mapM_is_Some, List.Forall_forall. intros r Hr. cbn [compose].
  destruct (map_at_opt_some _ _ _ (Hp r Hr)) as [cs ->]. eexists; reflexivity.
Qed.

(** The heart-rate loader returns a frame on every file that has the three
    columns it uses and whose dateTime cells all parse. *)
Lemma load_heart_rate_data_returns file exclude h :
  has_col "subjectID" file = true ->
  has_col "dateTime" file = true ->
  has_col "bpm" file = true ->
  (forall r, In r (rows file) ->
     Forall (fun v => is_Some (to_datetime v))
       (pick "dateTime" (columns file) (cells r))) ->
  exists r h' out,
    load_heart_rate_data to_datetime file exclude h = (Ok r, h') /\
    h' !! r = Some out.
Proof.
  intros Hid Hdt Hbpm Hparse. unfold load_heart_rate_data.
  rewrite bind_run. cbn [new].
  rewrite bind_run, inplace_last. unfold replace_in_column. rewrite Hbpm.
  set (d1 := mkDF (columns file) _).
  destruct (to_datetime_column_returns "dateTime" d1) as [d2 E2].
  { exact Hdt. }
  { intros r Hr. cbn [rows d1] in Hr. apply in_map_iff in Hr as (r0 & <- & Hr0).
    cbn [columns cells on_cells d1]. rewrite pick_map_at. cbn [String.eqb Ascii.eqb].
    simpl. now apply Hparse. }
  rewrite bind_run. cbn [to_datetime_inplace].
  rewrite bind_run, inplace_last, E2.
  assert (Hc : has_col "subjectID" d2 = true).
  { apply to_datetime_column_ok in E2 as [Hc _]. unfold has_col. now rewrite Hc. }
  destruct (exclude_and_return_returns _ exclude _ _ (lookup_last h d2) Hc)
    as (r & h' & E).
  pose proof (exclude_and_return_ok _ _ _ _ _ _ (lookup_last h d2) E) as [Hout _].
  exists r, h'. eexists. split; [exact E | exact Hout].
Qed.

End LoaderReturns.

(** ** The statements at the sample data *)

Lemma load_roster_sample :
  exists h', load_roster roster_sample true [] = (Ok 1, h') /\
    h' !! 1 = Some roster_loaded.
Proof. eexists. split; reflexivity. Qed.

Lemma rectangular_roster_sample : rectangular roster_sample.
Proof. repeat constructor. Qed.



Lemma remove_excluded_subjs_idempotent_witness :
  exists df1 h1,
    remove_excluded_subjs 0 ["MBL094"] [hr_sample] = (Ok df1, h1) /\
    exists df2 h2 once,
      remove_excluded_subjs df1 ["MBL094"] h1 = (Ok df2, h2) /\
      h1 !! df1 = Some once /\
      h2 !! df1 = Some once /\
      h2 !! df2 = Some once.
Proof.
  eexists _, _. split; [reflexivity|].
  apply (remove_excluded_subjs_idempotent [hr_sample] 0 ["MBL094"]).
  reflexivity.
Defined.

Lemma check_subjects_removed_nothing_witness :
  [hr_sample] !! 0 = Some hr_sample /\
  has_col "subjectID" hr_sample = true /\
  (forall msg,
     fst (check_subjects_removed 0 [] [hr_sample]) <> Raise (Exception_ msg)) /\
  check_subjects_removed 0 [] [hr_sample] = (Ok tt, [hr_sample]).
Proof.
  destruct (check_subjects_removed_nothing [hr_sample] 0 hr_sample eq_refl)
    as [Hq Hp].
  split; [reflexivity|]. split; [reflexivity|].
  split; [exact Hq | exact (Hp eq_refl)].
Defined.

Lemma load_heart_rate_data_bpm_witness :
  exists h' out,
    load_heart_rate_data seconds hr_sample true [] = (Ok 1, h') /\
    h' !! 1 = Some out /\
    Forall2
      (fun rin rout =>
         (cell "bpm" hr_sample rin = VNum 0 -> cell "bpm" out rout = NaN) /\
         (cell "bpm" hr_sample rin <> VNum 0 ->
          cell "bpm" out rout = cell "bpm" hr_sample rin))
      (survivors true hr_sample) (rows out).
Proof.
  eexists _, _. split; [reflexivity|]. split; [reflexivity|].
  eapply (load_heart_rate_data_bpm seconds hr_sample true [] 1); reflexivity.
Defined.

Lemma loaders_exclude_witness :
  (exists h' out,
     load seconds heart_rate hr_sample true [] = (Ok 1, h') /\
     h' !! 1 = Some out /\
     (forall row s, In row (rows out) -> In s excluded_subjects ->
        cell "subjectID" out row <> VStr s) /\
     check_subjects_removed 1 excluded_subjects h' = (Ok tt, h')) /\
  (exists h1,
     remove_excluded_subjs 0 ["MBL094"] [hr_sample] = (Ok 1, h1) /\
     check_subjects_removed 1 ["MBL094"] h1 = (Ok tt, h1)).
Proof.
  pose proof (loaders_exclude seconds heart_rate hr_sample []) as (_ & Hl & Hf).
  split.
  - eexists _, _. split; [reflexivity|]. split; [reflexivity|].
    apply Hl; reflexivity.
  - eexists. split; [reflexivity|]. apply (Hf [hr_sample] 0). reflexivity.
Defined.


Lemma load_roster_all_missing_witness :
  rectangular roster_sample /\
  exists h',
    load_roster roster_sample true [] = (Ok 1, h') /\
    h' !! 1 = Some roster_loaded /\
    In roster_row_3 (rows roster_loaded) /\
    (forall c, In c assessments ->
       Forall (fun v => v = NaN)
         (pick c (columns roster_loaded) (cells roster_row_3))) /\
    cell "overall_score" roster_loaded roster_row_3 = VNum 0.
Proof.
  assert (Hr : rectangular roster_sample) by (repeat constructor).
  assert (Hin : In roster_row_3 (rows roster_loaded)) by (right; now left).
  assert (Hm : forall c, In c assessments ->
            Forall (fun v => v = NaN)
              (pick c (columns roster_loaded) (cells roster_row_3))).
  { intros c Hc. unfold assessments in Hc. simpl in Hc.
    repeat (destruct Hc as [<-|Hc]; [repeat constructor|]). contradiction. }
  split; [exact Hr|].
  eexists. split; [reflexivity|]. split; [reflexivity|].
  split; [exact Hin|]. split; [exact Hm|].
  exact (load_roster_all_missing roster_sample true [] 1 _ roster_loaded
           roster_row_3 Hr eq_refl eq_refl Hin Hm).
Defined.

Lemma load_roster_recodes_X_witness :
  rectangular roster_sample /\
  exists h',
    load_roster roster_sample true [] = (Ok 1, h') /\
    h' !! 1 = Some roster_loaded /\
    Forall2
      (fun rin rout =>
         forall c j, ~ In c removed_columns -> c <> "overall_score" ->
           pick c (map sanitize (columns roster_sample)) (cells rin) !! j
             = Some (VStr "X") ->
           pick c (columns roster_loaded) (cells rout) !! j = Some NaN)
      (survivors true roster_sample) (rows roster_loaded).
Proof.
  assert (Hr : rectangular roster_sample) by (repeat constructor).
  split; [exact Hr|].
  eexists. split; [reflexivity|]. split; [reflexivity|].
  exact (load_roster_recodes_X roster_sample true [] 1 _ roster_loaded
           Hr eq_refl eq_refl).
Defined.

Lemma sanitize_spec_witness :
  exists h',
    load_roster roster_sample true [] = (Ok 1, h') /\
    h' !! 1 = Some roster_loaded /\
    columns roster_loaded = roster_columns roster_sample /\
    In (sanitize "Exam (Retake)?") (columns roster_loaded).
Proof.
  destruct sanitize_spec as (_ & _ & Hex & Hl).
  eexists. split; [reflexivity|]. split; [reflexivity|].
  split; [eapply (Hl roster_sample true [] 1); reflexivity|].
  rewrite Hex. right. now left.
Defined.

(** * Further properties *)

(** ** In-place operations on any object of the store *)


Lemma inplace_raise r f h e h' :
  inplace r f h = (Raise e, h') -> h' = h.
Proof.
  unfold inplace. rewrite bind_run. unfold deref.
  destruct (h !! r) as [d|]; [|intros E; now inversion E].
  rewrite bind_run. unfold lift. destruct (f d); intros E; now inversion E.
Qed.



Section DateFacts.

Variable to_datetime : value -> option value.






End DateFacts.

(** ** [to_datetime_inplace] on any frame of the store *)

Section DateInplace.

Variable to_datetime : value -> option value.








Lemma to_datetime_inplace_app df cols1 cols2 h :
  to_datetime_inplace to_datetime df (cols1 ++ cols2) h =
  (to_datetime_inplace to_datetime df cols1;;
   to_datetime_inplace to_datetime df cols2) h.
Proof.
  revert h. induction cols1 as [|c cols1 IH]; intros h; [reflexivity|].
  cbn [app to_datetime_inplace]. rewrite !bind_run.
  destruct (inplace df (to_datetime_column to_datetime c) h) as [[u|e] h1];
    [|reflexivity].
  rewrite IH, bind_run. reflexivity.
Qed.

(** X3: there is no rollback.  When the conversion of one column raises after
    the columns listed before it were converted, the call raises that
    exception and the frame keeps the conversions already made: the store
    is the one reached after the earlier columns, and the columns listed
    after the failing one are not looked at. *)
Theorem to_datetime_inplace_no_rollback (h : store) (df : ref)
  (cols1 : list string) (c : string) (cols2 : list string)
  (h1 : store) (e : exn) (h2 : store) :
  to_datetime_inplace to_datetime df cols1 h = (Ok tt, h1) ->
  to_datetime_inplace to_datetime df [c] h1 = (Raise e, h2) ->
  h2 = h1 /\
  to_datetime_inplace to_datetime df (cols1 ++ c :: cols2) h = (Raise e, h1).
Proof.
  intros E1 E2. cbn [to_datetime_inplace] in E2. rewrite bind_run in E2.
  destruct (inplace df (to_datetime_column to_datetime c) h1) as [[u|e1] h3] eqn:Ei;
    [discriminate|].
  inversion E2; subst e1 h3; clear E2.
  pose proof (inplace_raise _ _ _ _ _ Ei) as ->.
  split; [reflexivity|].
  rewrite to_datetime_inplace_app, bind_run, E1.
  cbn [to_datetime_inplace]. now rewrite bind_run, Ei.
Qed.

End DateInplace.

(** ** What a loader does to the store *)














Section StoreFacts.

Variable to_datetime : value -> option value.




End StoreFacts.

(** ** More on the exclusion filter and the validator *)

(** X9: on a frame without a subjectID column the filter and the validator
    both raise [AttributeError] for that name; neither changes the store,
    and the filter allocates nothing. *)
Theorem exclusion_without_subjectID (h : store) (df : ref) (d : DataFrame)
  (to_exclude : list string) :
  h !! df = Some d ->
  has_col "subjectID" d = false ->
  remove_excluded_subjs df to_exclude h = (Raise (AttributeError "subjectID"), h) /\
  check_subjects_removed df to_exclude h = (Raise (AttributeError "subjectID"), h).
Proof.
  intros Hd Hc. split.
  - unfold remove_excluded_subjs.
    rewrite bind_run, (deref_run _ _ _ Hd), bind_run.
    unfold lift, getattr. now rewrite Hc.
  - now apply (check_subjects_removed_no_column _ _ d).
Qed.

Lemma excluded_rowb_app ex1 ex2 d r :
  excluded_rowb (ex1 ++ ex2) d r = excluded_rowb ex1 d r || excluded_rowb ex2 d r.
Proof. unfold excluded_rowb. now rewrite map_app, existsb_app. Qed.

Lemma filter_twice {A : Type} (p q : A -> bool) (l : list A) :
  List.filter q (List.filter p l) = List.filter (fun x => p x && q x) l.
Proof.
  induction l as [|x l IH]; [reflexivity|]. simpl.
  destruct (p x); simpl; [|exact IH]. destruct (q x); now rewrite IH.
Qed.

(** X10: filtering with one list of identifiers and then with another gives
    a frame equal to the one obtained by filtering once with the two lists
    appended. *)
Theorem remove_excluded_subjs_compose (h : store) (df : ref)
  (ex1 ex2 : list string) (df1 : ref) (h1 : store) :
  remove_excluded_subjs df ex1 h = (Ok df1, h1) ->
  exists df2 h2 df12 h12 out,
    remove_excluded_subjs df1 ex2 h1 = (Ok df2, h2) /\
    remove_excluded_subjs df (ex1 ++ ex2) h = (Ok df12, h12) /\
    h2 !! df2 = Some out /\
    h12 !! df12 = Some out.
Proof.
  intros E. destruct (remove_excluded_subjs_ok _ _ _ _ _ E) as (d & Hd & Hc).
  rewrite (remove_excluded_subjs_run _ _ _ _ Hd Hc) in E.
  inversion E; subst df1 h1; clear E.
  set (d1 := mkDF (columns d) _).
  assert (H1 : (h ++ [d1]) !! length h = Some d1) by apply lookup_last.
  eexists _, _, _, _, _.
  split; [apply (remove_excluded_subjs_run _ _ _ _ H1 Hc)|].
  split; [apply (remove_excluded_subjs_run _ _ _ _ Hd Hc)|].
  split; [apply lookup_last|].
  rewrite lookup_last. f_equal. unfold d1. cbn [columns rows]. f_equal.
  symmetry. transitivity
    (List.filter (fun r => negb (excluded_rowb ex2 d r))
       (List.filter (fun r => negb (excluded_rowb ex1 d r)) (rows d)));
    [reflexivity|].
  rewrite filter_twice. apply filter_ext. intros r.
  now rewrite excluded_rowb_app, negb_orb.
Qed.



Lemma existsb_same_elements {A : Type} (f : A -> bool) (l1 l2 : list A) :
  (forall x, In x l1 <-> In x l2) -> existsb f l1 = existsb f l2.
Proof.
  intros H. apply eq_true_iff_eq. rewrite !existsb_exists.
  split; intros (x & Hx & Hf); exists x; split; try assumption; now apply H.
Qed.

(** X12: the filter and the validator depend on the identifiers to exclude
    only as a set: two lists with the same members, in any order and with
    any repetitions, give the same outcome on every store.  (So the order
    in which [list(set(...))] lists [excluded_subjects] is immaterial.) *)
Theorem exclusion_set_semantics (ex1 ex2 : list string) (df : ref) (h : store) :
  (forall s, In s ex1 <-> In s ex2) ->
  remove_excluded_subjs df ex1 h = remove_excluded_subjs df ex2 h /\
  check_subjects_removed df ex1 h = check_subjects_removed df ex2 h.
Proof.
  intros Hsame.
  assert (Hv : forall v, In v (map VStr ex1) <-> In v (map VStr ex2)).
  { intros v. rewrite !in_map_iff.
    split; intros (s & <- & Hs); exists s; split; try reflexivity; now apply Hsame. }
  split.
  - unfold remove_excluded_subjs. rewrite !bind_run.
    destruct (deref df h) as [[d|e] h1]; [|reflexivity].
    rewrite !bind_run. destruct (lift (getattr "subjectID" d) h1) as [[col|e] h2];
      [|reflexivity].
    do 4 f_equal. unfold isin. apply map_ext. intros v.
    now apply existsb_same_elements.
  - unfold check_subjects_removed. rewrite !bind_run.
    destruct (deref df h) as [[d|e] h1]; [|reflexivity].
    rewrite !bind_run. destruct (lift (getattr "subjectID" d) h1) as [[col|e] h2];
      [|reflexivity].
    replace (any (isin (map VStr ex1) col)) with (any (isin (map VStr ex2) col));
      [reflexivity|].
    apply eq_true_iff_eq. rewrite !any_isin.
    split; intros (s & Hs & Hc); exists s; split; try assumption; now apply Hsame.
Qed.

(** ** The loaders of the four measurement files *)




Section MeasurementLoaders.

Variable to_datetime : value -> option value.










End MeasurementLoaders.

(** ** More on column names *)

Lemma special_underscore a : special (underscore a) = false.
Proof.
  unfold underscore. destruct (special a) eqn:E; [reflexivity | exact E].
Qed.

Lemma str_replace_swap o1 o2 n s :
  str_replace o1 n (str_replace o2 n s) = str_replace o2 n (str_replace o1 n s).
Proof.
  induction s as [|a s IH]; [reflexivity|]. simpl. rewrite IH. f_equal.
  destruct (Ascii.eqb_spec a o2), (Ascii.eqb_spec a o1); subst;
    repeat match goal with
      | |- context [Ascii.eqb ?x ?y] => destruct (Ascii.eqb_spec x y)
      end; congruence.
Qed.

(** X13: a sanitized name holds none of the four characters; a name that
    holds none of them is left as it is; so sanitizing a sanitized name
    changes nothing. *)
Theorem sanitize_idempotent :
  (forall x i a, String.get i (sanitize x) = Some a -> special a = false) /\
  (forall x, (forall i a, String.get i x = Some a -> special a = false) ->
     sanitize x = x) /\
  (forall x, sanitize (sanitize x) = sanitize x).
Proof.
  assert (H1 : forall x i a,
            String.get i (sanitize x) = Some a -> special a = false).
  { intros x i a. rewrite sanitize_get.
    destruct (String.get i x) as [b|]; simpl; intros E; inversion E.
    apply special_underscore. }
  assert (H2 : forall x,
            (forall i a, String.get i x = Some a -> special a = false) ->
            sanitize x = x).
  { induction x as [|b x IH]; intros H; [reflexivity|].
    rewrite sanitize_cons. f_equal.
    - unfold underscore. now rewrite (H 0 b eq_refl).
    - apply IH. intros i a. exact (H (S i) a). }
  split; [exact H1|]. split; [exact H2|].
  intros x. apply H2. exact (H1 x).
Qed.

(** X14: the order of the four renamings of [load_roster] does not matter:
    two replacements by the same character commute, and applying the four
    in the reverse order gives the same name. *)
Theorem sanitize_order :
  (forall o1 o2 n s,
     str_replace o1 n (str_replace o2 n s) =
     str_replace o2 n (str_replace o1 n s)) /\
  (forall x,
     sanitize x =
     str_replace " " "_" (str_replace "?" "_"
       (str_replace "(" "_" (str_replace ")" "_" x)))).
Proof.
  split; [exact str_replace_swap|].
  intros x. unfold sanitize.
  rewrite (str_replace_swap ")" "(" "_").
  rewrite (str_replace_swap ")" "?" "_").
  rewrite (str_replace_swap ")" " " "_").
  rewrite (str_replace_swap "(" "?" "_").
  rewrite (str_replace_swap "(" " " "_").
  rewrite (str_replace_swap "?" " " "_").
  reflexivity.
Qed.

(** ** More on the roster loader *)

Lemma In_drop_cells labels cols cs v :
  In v (drop_cells labels cols cs) -> In v cs.
Proof.
  revert cs. induction cols as [|k cols IH]; intros [|w cs] H; simpl in *;
    try assumption.
  destruct (mem k labels); [right; now apply IH|].
  destruct H as [<-|H]; [now left | right; now apply IH].
Qed.

Lemma In_map_at c f cols cs v :
  In v (map_at c f cols cs) -> In v cs \/ exists w, v = f w.
Proof.
  revert cs. induction cols as [|k cols IH]; intros [|w cs] H; simpl in *;
    try (now left).
  destruct H as [<-|H].
  - destruct (String.eqb k c); [right; eauto | left; now left].
  - destruct (IH _ H) as [Hin|Hf]; [left; now right | now right].
Qed.

Lemma replace_X_not_X v : replace_value (VStr "X") NaN v <> VStr "X".
Proof.
  unfold replace_value. destruct (value_eqb v (VStr "X")) eqn:E; [discriminate|].
  intros ->. simpl in E. discriminate.
Qed.

Lemma kept_cells_not_X file r : ~ In (VStr "X") (kept_cells file r).
Proof.
  unfold kept_cells. intros H. apply In_drop_cells in H.
  apply in_map_iff in H as (v & Hv & _). exact (replace_X_not_X _ Hv).
Qed.







(** X16: the frame [load_roster] returns has no column named account_email,
    lastname, firstname, Quiz_9 or Final, whatever the source names were
    before sanitization. *)
Theorem load_roster_removes_columns (file : DataFrame) (exclude : bool)
  (h : store) (r : ref) (h' : store) (out : DataFrame) :
  load_roster file exclude h = (Ok r, h') ->
  h' !! r = Some out ->
  forall c, In c removed_columns -> has_col c out = false.
Proof.
  intros E Hout c Hc.
  destruct (load_roster_result _ _ _ _ _ _ E Hout) as (d & Hd & ->).
  apply roster_frame_ok in Hd as (_ & Hcols & _).
  unfold has_col. cbn [columns]. rewrite Hcols.
  apply not_true_iff_false. rewrite mem_In. unfold roster_columns.
  assert (Hk : ~ In c (kept_columns file)).
  { unfold kept_columns. intros Hin. apply filter_In in Hin as [_ Hin].
    apply mem_In in Hc. rewrite Hc in Hin. discriminate. }
  destruct (mem "overall_score" (kept_columns file)); [exact Hk|].
  intros Hin. apply in_app_or in Hin as [Hin|[<-|[]]]; [exact (Hk Hin)|].
  unfold removed_columns in Hc. simpl in Hc.
  repeat (destruct Hc as [Hc|Hc]; [discriminate Hc|]). exact Hc.
Qed.

(** X17: no cell of the frame [load_roster] returns is the text X. *)
Theorem load_roster_no_X (file : DataFrame) (exclude : bool)
  (h : store) (r : ref) (h' : store) (out : DataFrame) :
  load_roster file exclude h = (Ok r, h') ->
  h' !! r = Some out ->
  forall row, In row (rows out) -> ~ In (VStr "X") (cells row).
Proof.
  intros E Hout row Hrow.
  destruct (load_roster_result _ _ _ _ _ _ E Hout) as (d & Hd & ->).
  cbn [rows] in Hrow. apply survivors_In in Hrow.
  apply roster_frame_ok in Hd as (_ & _ & HF).
  destruct (Forall2_In_r _ _ _ _ HF Hrow) as (rin & _ & z & _ & ->).
  cbn [cells]. unfold set_cell.
  destruct (mem "overall_score" (kept_columns file)).
  - intros H. apply In_map_at in H as [H|[w H]]; [|discriminate H].
    exact (kept_cells_not_X _ _ H).
  - intros H. apply in_app_or in H as [H|[H|[]]]; [|discriminate H].
    exact (kept_cells_not_X _ _ H).
Qed.

(** X18: in the frame [load_roster] returns for a rectangular roster, row
    by row against the rows read (excluded subjects left out when
    [exclude] is set): the index label is the subjectID cell as read, before
    any recoding; and under every column that is neither removed nor
    overall_score, a cell that is not the text X has the value read. *)
Theorem load_roster_keeps_cells (file : DataFrame) (exclude : bool)
  (h : store) (r : ref) (h' : store) (out : DataFrame) :
  rectangular file ->
  load_roster file exclude h = (Ok r, h') ->
  h' !! r = Some out ->
  Forall2
    (fun rin rout =>
       label rout = cell "subjectID" file rin /\
       forall c j v, ~ In c removed_columns -> c <> "overall_score" ->
         pick c (map sanitize (columns file)) (cells rin) !! j = Some v ->
         v <> VStr "X" ->
         pick c (columns out) (cells rout) !! j = Some v)
    (survivors exclude file) (rows out).
Proof.
  intros Hrect E Hout.
  destruct (load_roster_result _ _ _ _ _ _ E Hout) as (d & Hd & ->).
  cbn [columns rows].
  pose proof (roster_frame_rows _ _ Hd Hrect) as Hrows.
  eapply Forall2_impl.
  - apply (survivors_Forall2 _ exclude file d Hrows).
    intros x y (_ & _ & Hp & _). unfold excluded_rowb, cell.
    rewrite (Hp "subjectID") by (reflexivity || discriminate).
    rewrite pick_sanitize_plain by reflexivity.
    rewrite hd_map_fixed by reflexivity.
    now rewrite excluded_replace_X.
  - intros rin rout (Hl & _ & Hp & _). split; [exact Hl|].
    intros c j v Hc Hos Hv Hx.
    rewrite (Hp c); [|now apply not_true_iff_false; rewrite mem_In|exact Hos].
    rewrite lookup_map, Hv. simpl. f_equal. unfold replace_value.
    destruct (value_eqb v (VStr "X")) eqn:Ev; [|reflexivity].
    apply value_eqb_VStr in Ev. contradiction.
Qed.

(** ** The further statements at the sample data *)




Lemma to_datetime_inplace_no_rollback_witness :
  exists h1,
    to_datetime_inplace seconds 0 ["date"; "startDateTime"] [sleep_broken]
      = (Ok tt, h1) /\
    to_datetime_inplace seconds 0 ["endDateTime"] h1 = (Raise ValueError, h1) /\
    to_datetime_inplace seconds 0 ["date"; "startDateTime"; "endDateTime"]
      [sleep_broken] = (Raise ValueError, h1) /\
    h1 <> [sleep_broken].
Proof.
  eexists. split; [reflexivity|]. split; [reflexivity|].
  split; [|discriminate].
  exact (proj2 (to_datetime_inplace_no_rollback seconds [sleep_broken] 0
                  ["date"; "startDateTime"] "endDateTime" [] _ ValueError _
                  eq_refl eq_refl)).
Defined.






Lemma exclusion_without_subjectID_witness :
  [unnamed_sample] !! 0 = Some unnamed_sample /\
  has_col "subjectID" unnamed_sample = false /\
  remove_excluded_subjs 0 excluded_subjects [unnamed_sample]
    = (Raise (AttributeError "subjectID"), [unnamed_sample]) /\
  check_subjects_removed 0 excluded_subjects [unnamed_sample]
    = (Raise (AttributeError "subjectID"), [unnamed_sample]).
Proof.
  split; [reflexivity|]. split; [reflexivity|].
  exact (exclusion_without_subjectID [unnamed_sample] 0 unnamed_sample
           excluded_subjects eq_refl eq_refl).
Defined.

Lemma remove_excluded_subjs_compose_witness :
  exists h1,
    remove_excluded_subjs 0 ["MBL094"] [hr_sample] = (Ok 1, h1) /\
    exists df2 h2 df12 h12 out,
      remove_excluded_subjs 1 ["MBL002"] h1 = (Ok df2, h2) /\
      remove_excluded_subjs 0 (["MBL094"] ++ ["MBL002"]) [hr_sample]
        = (Ok df12, h12) /\
      h2 !! df2 = Some out /\
      h12 !! df12 = Some out.
Proof.
  eexists. split; [reflexivity|].
  apply (remove_excluded_subjs_compose [hr_sample] 0 ["MBL094"] ["MBL002"]).
  reflexivity.
Defined.


Lemma sanitize_idempotent_witness :
  (forall i a, String.get i "Quiz_1" = Some a -> special a = false) /\
  sanitize "Quiz_1" = "Quiz_1" /\
  sanitize (sanitize "Exam (Retake)?") = sanitize "Exam (Retake)?".
Proof.
  destruct sanitize_idempotent as (_ & Hfix & Hidem).
  assert (Hq : forall i a, String.get i "Quiz_1" = Some a -> special a = false).
  { intros i a. do 6 (destruct i as [|i]; [intros E; inversion E; reflexivity|]).
    discriminate. }
  split; [exact Hq|]. split; [exact (Hfix "Quiz_1" Hq) | apply Hidem].
Defined.


Lemma load_roster_removes_columns_witness :
  exists h',
    load_roster roster_sample true [] = (Ok 1, h') /\
    h' !! 1 = Some roster_loaded /\
    forall c, In c removed_columns -> has_col c roster_loaded = false.
Proof.
  eexists. split; [reflexivity|]. split; [reflexivity|].
  eapply (load_roster_removes_columns roster_sample true [] 1); reflexivity.
Defined.

Lemma load_roster_no_X_witness :
  exists h',
    load_roster roster_sample true [] = (Ok 1, h') /\
    h' !! 1 = Some roster_loaded /\
    forall row, In row (rows roster_loaded) -> ~ In (VStr "X") (cells row).
Proof.
  eexists. split; [reflexivity|]. split; [reflexivity|].
  eapply (load_roster_no_X roster_sample true [] 1); reflexivity.
Defined.

Lemma load_roster_keeps_cells_witness :
  rectangular roster_sample /\
  exists h',
    load_roster roster_sample true [] = (Ok 1, h') /\
    h' !! 1 = Some roster_loaded /\
    Forall2
      (fun rin rout =>
         label rout = cell "subjectID" roster_sample rin /\
         forall c j v, ~ In c removed_columns -> c <> "overall_score" ->
           pick c (map sanitize (columns roster_sample)) (cells rin) !! j
             = Some v ->
           v <> VStr "X" ->
           pick c (columns roster_loaded) (cells rout) !! j = Some v)
      (survivors true roster_sample) (rows roster_loaded).
Proof.
  assert (Hr : rectangular roster_sample) by (repeat constructor).
  split; [exact Hr|].
  eexists. split; [reflexivity|]. split; [reflexivity|].
  exact (load_roster_keeps_cells roster_sample true [] 1 _ roster_loaded
           Hr eq_refl eq_refl).
Defined.

Lemma exclusion_set_semantics_witness :
  (forall s, In s ["MBL094"; "MBL002"] <-> In s ["MBL002"; "MBL094"; "MBL002"]) /\
  remove_excluded_subjs 0 ["MBL094"; "MBL002"] [hr_sample] =
  remove_excluded_subjs 0 ["MBL002"; "MBL094"; "MBL002"] [hr_sample] /\
  check_subjects_removed 0 ["MBL094"; "MBL002"] [hr_sample] =
  check_subjects_removed 0 ["MBL002"; "MBL094"; "MBL002"] [hr_sample].
Proof.
  assert (Hs : forall s,
            In s ["MBL094"; "MBL002"] <-> In s ["MBL002"; "MBL094"; "MBL002"])
    by (intros s; simpl; tauto).
  split; [exact Hs|].
  exact (exclusion_set_semantics _ _ 0 [hr_sample] Hs).
Defined.
